(** * feeder-data-dashboard: the synthetic telemetry generators and their endpoints

    A shallow embedding of the demo weather and solar services:

    - [backend_cors_fix_weather_api.py]  (module [WeatherApi]),
    - [backend_cors_fix_solar_api.py]    (module [SolarApi]),
    - [weather_api_example.py]           (module [WeatherExample]),
    - the CORS configuration blocks of all five files (module [Cors]).

    Conventions of the embedding.

    - A Python [int] is a [Z].  A Python [float] is the rational number it
      denotes, a [Q]: arithmetic is exact, the rounding of each binary64
      operation is left out.  The integer [0] and the float [0.0] are the
      same rational (Python compares them equal).
    - [datetime.now()] and [random.random()] read the outside world.  The
      world is a state threaded through the generators: the wall clock and
      the position in the sequence of numbers the random source produces.
    - [math.sin], [datetime.isoformat] and the random source belong to the
      Python library; they are the fields of the class [Host], over which
      the development is generic. *)

From Stdlib Require Import ZArith QArith Qround List String Bool Lia.
From Stdlib Require Import DecimalString Lqa.
Import ListNotations.

Open Scope Z_scope.

(** ** Python built-ins *)

Module Py.

(** [range(n)]: [0, 1, ..., n-1]; empty when [n <= 0]. *)
Definition range (n : Z) : list Z := map Z.of_nat (seq 0 (Z.to_nat n)).

(** [b > a], on floats. *)
Definition gt (b a : Q) : bool := negb (Qle_bool b a).

(** [max(a, b)]: the first argument is kept unless the second is
    strictly greater. *)
Definition max (a b : Q) : Q := if gt b a then b else a.

(** [min(a, b)]: the first argument is kept unless the second is
    strictly smaller. *)
Definition min (a b : Q) : Q := if gt a b then b else a.

Definition pow10 (ndigits : nat) : Z := 10 ^ Z.of_nat ndigits.

(** Rounding to the nearest integer, ties to the even one. *)
Definition round_half_even (y : Q) : Z :=
  let f := Qfloor y in
  match Qcompare (y - inject_Z f) (1 # 2) with
  | Lt => f
  | Gt => f + 1
  | Eq => if Z.even f then f else f + 1
  end.

(** [round(x, ndigits)]: the multiple of [10^-ndigits] nearest to [x],
    ties to the even one. *)
Definition round (x : Q) (ndigits : nat) : Q :=
  Qred (inject_Z (round_half_even (x * inject_Z (pow10 ndigits)))
        / inject_Z (pow10 ndigits)).

(** [abs] on integers. *)
Definition abs (z : Z) : Z := Z.abs z.

(** [math.pi]: the binary64 number nearest to pi, as the rational it is. *)
Definition pi : Q := 884279719003555 # 281474976710656.

End Py.

(** ** [datetime] and [timedelta]

    A naive [datetime] is a count of microseconds on the proleptic calendar;
    a [timedelta] is a signed count of microseconds.  Adding and subtracting
    is integer arithmetic (no time zone is involved).  Python only holds
    the instants from 0001-01-01 to 9999-12-31 and raises [OverflowError]
    when a sum or a difference leaves them: [add] and [sub] give what
    Python gives when the result is [in_calendar], and a statement about
    limits that are not bounded carries that as a hypothesis. *)

Module Datetime.

Definition datetime := Z.
Definition timedelta := Z.

Definition us_per_minute : Z := 60 * 1000000.
Definition us_per_hour : Z := 60 * us_per_minute.

Definition minutes (m : Z) : timedelta := m * us_per_minute.
Definition hours (h : Z) : timedelta := h * us_per_hour.

Definition add (t : datetime) (d : timedelta) : datetime := t + d.
Definition sub (t : datetime) (d : timedelta) : datetime := t - d.

(** [t.hour], in [0, 23]. *)
Definition hour (t : datetime) : Z := (t / us_per_hour) mod 24.

(** [datetime.min] is 0001-01-01T00:00:00 and [datetime.max] is
    9999-12-31T23:59:59.999999, the last microsecond of day 3652059. *)
Definition earliest : datetime := 0.
Definition latest : datetime := 3652059 * 24 * us_per_hour - 1.

(** The instants a [datetime] can hold. *)
Definition in_calendar (t : datetime) : Prop := earliest <= t <= latest.

End Datetime.

Import Datetime.

(** ** The world: wall clock and random source *)

Record World := mkWorld {
  clock : datetime;   (* what [datetime.now()] reads *)
  drawn : nat         (* how many numbers [random.random()] has handed out *)
}.

Definition M (A : Type) : Type := World -> A * World.

Definition ret {A} (a : A) : M A := fun w => (a, w).

Definition bind {A B} (m : M A) (k : A -> M B) : M B :=
  fun w => let (a, w') := m w in k a w'.

Declare Scope world_scope.
Delimit Scope world_scope with world.
Notation "x <- m ;; k" := (bind m (fun x => k))
  (at level 61, m at next level, right associativity) : world_scope.
Open Scope world_scope.

(** [for x in xs: data.append(body(x))], [data] starting empty. *)
Fixpoint for_append {A B} (xs : list A) (body : A -> M B) : M (list B) :=
  match xs with
  | [] => ret []
  | x :: xs' =>
      r <- body x ;;
      rs <- for_append xs' body ;;
      ret (r :: rs)
  end.

Definition run {A} (m : M A) (w : World) : A := fst (m w).

Definition datetime_now : M datetime := fun w => (clock w, w).

(** [6 <= hour <= 18] *)
Definition daylight (hour : Z) : bool := (6 <=? hour) && (hour <=? 18).

(** ** The Python library the services run on *)

Class Host := {
  (** [math.sin] on floats *)
  sin : Q -> Q;
  (** [datetime.isoformat] *)
  isoformat : datetime -> string;
  (** the numbers [random.random()] hands out, in order *)
  random : nat -> Q
}.

Section Library.

Context {host : Host}.

Definition random_random : M Q :=
  fun w => (random (drawn w), mkWorld (clock w) (S (drawn w))).

(** [random.uniform(a, b)] is [a + (b - a) * random()]. *)
Definition random_uniform (a b : Q) : M Q :=
  u <- random_random ;;
  ret (a + (b - a) * u)%Q.

(** [math.sin((hour - 6) * math.pi / 12)] *)
Definition sin_hour (hour : Z) : Q :=
  sin (inject_Z (hour - 6) * Py.pi / 12)%Q.

End Library.

(** ** The host framework: query parameters and responses

    The framework parses the query string before an endpoint runs.  A
    parameter is absent, or holds a value of the declared type, or does not
    parse.  [Query default ge le] is the declaration
    [Query(default, ge=.., le=..)]; a plain [limit: int = 20] has no
    bounds.  A parameter that fails validation ends the request with
    status 422, and the endpoint's body never runs. *)

Inductive param (A : Type) : Type :=
| Absent
| Given (a : A)
| Malformed.
Arguments Absent {A}.
Arguments Given {A} a.
Arguments Malformed {A}.

Inductive response (A : Type) : Type :=
| OK_200 (body : A)
| Unprocessable_422.
Arguments OK_200 {A} body.
Arguments Unprocessable_422 {A}.

Definition within (ge le : option Z) (v : Z) : bool :=
  match ge with Some lo => lo <=? v | None => true end
  && match le with Some hi => v <=? hi | None => true end.

Definition Query (default : Z) (ge le : option Z) (p : param Z) : option Z :=
  match p with
  | Absent => Some default
  | Given v => if within ge le v then Some v else None
  | Malformed => None
  end.

(** A [str] parameter with a default: every value parses. *)
Definition str_param (default : string) (p : option string) : string :=
  match p with
  | None => default
  | Some s => s
  end.

(** An endpoint whose parameters validated returns its handler's value as
    the body of a 200 response. *)
Definition endpoint {P A} (validated : option P) (handler : P -> M A)
  : M (response A) :=
  match validated with
  | Some p => body <- handler p ;; ret (OK_200 body)
  | None => ret Unprocessable_422
  end.

(** ** The payloads of the static endpoints

    A dictionary display is kept as the list of its items, in the order of
    the display.  Its values here are strings, integers, floats, lists of
    strings, and a [datetime] handed to the framework as it is. *)

Inductive value : Type :=
| Str (s : string)
| Int (z : Z)
| Num (q : Q)
| Time (t : datetime)
| Strs (items : list string).

Definition payload : Type := list (string * value).

(** [d[key]], when the dictionary has the key. *)
Definition get (key : string) (d : payload) : option value :=
  option_map snd (find (fun item => String.eqb (fst item) key) d).


(** The paths listed under ["endpoints"] in a banner. *)
Definition advertised (banner : payload) : list string :=
  match get "endpoints" banner with
  | Some (Strs items) => items
  | _ => []
  end.

(** ** [backend_cors_fix_weather_api.py] *)

Module WeatherApi.

Record WeatherRecord := {
  id : Z;
  timestamp : string;
  temperature : Q;
  relative_humidity_2m : Q;
  wind_speed_10m : Q;
  pressure_msl : Q;
  cloud_cover : Q;
  direct_normal_irradiance : Q;
  latitude : Q;
  longitude : Q;
  data_type : string
}.

Section Service.

Context {host : Host}.
Local Open Scope Q_scope.

(** The body of the loop of [generate_weather_data], at index [i]. *)
Definition weather_point (now : datetime) (limit i : Z) : M WeatherRecord :=
  let timestamp := sub now (minutes ((limit - i - 1) * 5)%Z) in
  let hour := Datetime.hour timestamp in
  let base_temp := 25 + sin_hour hour * 8 in
  u <- random_uniform (-2) 2 ;;
  let temperature := base_temp + u in
  u <- random_uniform (-15) 15 ;;
  let humidity := Py.max 30 (Py.min 90 (60 + u)) in
  u <- random_uniform (-1) 3 ;;
  let wind_speed := Py.max 0 (3 + u) in
  u <- random_uniform (-10) 10 ;;
  let pressure := 1013 + u in
  cloud_cover <- random_uniform 0 80 ;;
  irradiance <-
    (if daylight hour then
       let base_irradiance := 800 * sin_hour hour in
       let cloud_factor := (100 - cloud_cover) / 100 in
       u <- random_uniform (-50) 50 ;;
       ret (Py.max 0 (base_irradiance * cloud_factor + u))
     else ret 0) ;;
  ret {| id := (i + 1)%Z;
         timestamp := isoformat timestamp;
         temperature := Py.round temperature 1;
         relative_humidity_2m := Py.round humidity 1;
         wind_speed_10m := Py.round wind_speed 1;
         pressure_msl := Py.round pressure 1;
         cloud_cover := Py.round cloud_cover 1;
         direct_normal_irradiance := Py.round irradiance 1;
         latitude := 6.86666;
         longitude := 80.01667;
         data_type := "forecast" |}.

Definition generate_weather_data (limit : Z) : M (list WeatherRecord) :=
  now <- datetime_now ;;
  for_append (Py.range limit) (weather_point now limit).

(** [GET /weather/data] *)
Definition get_weather_data (limit : param Z)
  : M (response (list WeatherRecord)) :=
  endpoint (Query 20 (Some 1%Z) (Some 100%Z) limit) generate_weather_data.

(** [GET /] *)
Definition root : M payload :=
  ret ([("message", Str "Weather API is running");
             ("status", Str "ok");
             ("cors", Str "enabled");
             ("endpoints", Strs ["/weather/data"; "/weather-data"])
           ]%string : payload).

(** [GET /weather-data]: [data_type] is parsed and then not used. *)
Definition get_weather_data_alt (limit : param Z) (data_type : option string)
  : M (response (list WeatherRecord)) :=
  endpoint
    (option_map (fun l => (l, str_param "forecast" data_type))
                (Query 20 (Some 1%Z) (Some 100%Z) limit))
    (fun '(limit, data_type) => generate_weather_data limit).

End Service.

End WeatherApi.

(** ** [backend_cors_fix_solar_api.py] *)

Module SolarApi.

Record WeatherConditions := {
  temperature : Q;
  relative_humidity_2m : Q;
  wind_speed_10m : Q;
  cloud_cover : Q;
  direct_normal_irradiance : Q
}.

Record Location := {
  latitude : Q;
  longitude : Q
}.

(** The realtime records have no ["forecast_type"] key. *)
Record SolarPrediction := {
  id : Z;
  timestamp : string;
  predicted_power_kw : Q;
  weather_conditions : WeatherConditions;
  location : Location;
  forecast_type : option string
}.

Section Service.

Context {host : Host}.
Local Open Scope Q_scope.

(** The body of the loop of [generate_realtime_predictions], at index [i].
    The two draws inside the dictionary display come last, in the order
    of its keys. *)
Definition realtime_point (now : datetime) (limit i : Z) : M SolarPrediction :=
  let timestamp := sub now (minutes ((limit - i - 1) * 5)%Z) in
  let hour := Datetime.hour timestamp in
  predicted_power <-
    (if daylight hour then
       let solar_curve := sin_hour hour in
       let base_power := solar_curve * 5 in
       u <- random_uniform (-0.5) 0.5 ;;
       ret (Py.max 0 (base_power + u))
     else ret 0) ;;
  u <- random_uniform (-2) 2 ;;
  let temp := 25 + sin_hour hour * 8 + u in
  u <- random_uniform (-15) 15 ;;
  let humidity := Py.max 30 (Py.min 90 (60 + u)) in
  u_wind <- random_uniform (-1) 2 ;;
  u_cloud <- random_uniform 0 60 ;;
  ret {| id := (i + 1)%Z;
         timestamp := isoformat timestamp;
         predicted_power_kw := Py.round predicted_power 2;
         weather_conditions :=
           {| temperature := Py.round temp 1;
              relative_humidity_2m := Py.round humidity 1;
              wind_speed_10m := Py.round (3 + u_wind) 1;
              cloud_cover := Py.round u_cloud 1;
              direct_normal_irradiance :=
                Py.round (if daylight hour
                          then Py.max 0 (800 * sin_hour hour)
                          else 0) 1 |};
         location := {| latitude := 6.86666; longitude := 80.01667 |};
         forecast_type := None |}.

Definition generate_realtime_predictions (limit : Z) : M (list SolarPrediction) :=
  now <- datetime_now ;;
  for_append (Py.range limit) (realtime_point now limit).

(** The body of the loop of [generate_forecast_predictions], at index [i]. *)
Definition forecast_point (now : datetime) (i : Z) : M SolarPrediction :=
  let timestamp := add now (hours i) in
  let hour := Datetime.hour timestamp in
  predicted_power <-
    (if daylight hour then
       let solar_curve := sin_hour hour in
       let base_power := solar_curve * 6 in
       u <- random_uniform (-0.8) 0.8 ;;
       ret (Py.max 0 (base_power + u))
     else ret 0) ;;
  u <- random_uniform (-1.5) 1.5 ;;
  let temp := 26 + sin_hour hour * 7 + u in
  u <- random_uniform (-12) 12 ;;
  let humidity := Py.max 35 (Py.min 85 (55 + u)) in
  u_wind <- random_uniform (-0.5) 2 ;;
  u_cloud <- random_uniform 0 50 ;;
  ret {| id := (i + 1)%Z;
         timestamp := isoformat timestamp;
         predicted_power_kw := Py.round predicted_power 2;
         weather_conditions :=
           {| temperature := Py.round temp 1;
              relative_humidity_2m := Py.round humidity 1;
              wind_speed_10m := Py.round (2.5 + u_wind) 1;
              cloud_cover := Py.round u_cloud 1;
              direct_normal_irradiance :=
                Py.round (if daylight hour
                          then Py.max 0 (850 * sin_hour hour)
                          else 0) 1 |};
         location := {| latitude := 6.86666; longitude := 80.01667 |};
         forecast_type := Some "hourly"%string |}.

Definition generate_forecast_predictions (limit : Z) : M (list SolarPrediction) :=
  now <- datetime_now ;;
  for_append (Py.range limit) (forecast_point now).

(** [GET /] *)
Definition root : M payload :=
  ret ([("message", Str "Solar API is running");
             ("status", Str "ok");
             ("cors", Str "enabled");
             ("endpoints", Strs ["/solar-predictions";
                                 "/solar-predictions/forecast";
                                 "/database/status"])
           ]%string : payload).



(** [GET /solar-predictions] *)
Definition get_solar_predictions (limit : param Z)
  : M (response (list SolarPrediction)) :=
  endpoint (Query 24 (Some 1%Z) (Some 100%Z) limit) generate_realtime_predictions.

(** [GET /solar-predictions/forecast] *)
Definition get_forecast_predictions (limit : param Z)
  : M (response (list SolarPrediction)) :=
  endpoint (Query 24 (Some 1%Z) (Some 100%Z) limit) generate_forecast_predictions.

End Service.

End SolarApi.

(** ** [weather_api_example.py] *)

Module WeatherExample.

(** The pydantic model [WeatherData]; its [timestamp] is a [datetime]. *)
Record WeatherData := {
  id : Z;
  timestamp : datetime;
  temperature : Q;
  relative_humidity_2m : Q;
  wind_speed_10m : Q;
  pressure_msl : Q;
  cloud_cover : Q;
  direct_normal_irradiance : Q;
  latitude : Q;
  longitude : Q;
  data_type : string
}.

Section Service.

Context {host : Host}.
Local Open Scope Q_scope.

(** The body of the loop of [generate_sample_weather_data], at index [i]. *)
Definition weather_point (base_time : datetime) (data_type : string) (i : Z)
  : M WeatherData :=
  let timestamp := add base_time (hours i) in
  let hour := Datetime.hour timestamp in
  let base_temp := 20 + inject_Z (10 * Py.abs (12 - hour)) / 12 in
  u <- random_uniform (-3) 3 ;;
  let temperature := base_temp + u in
  u <- random_uniform (-20) 20 ;;
  let humidity := 60 + u in
  u <- random_uniform (-2) 5 ;;
  let wind_speed := 5 + u in
  u <- random_uniform (-10) 10 ;;
  let pressure := 1013 + u in
  cloud_cover <- random_uniform 0 100 ;;
  irradiance <-
    (if daylight hour then
       let max_irradiance := 1000 * (1 - cloud_cover / 100) in
       let time_factor := inject_Z (Py.abs (12 - hour)) / 6 in
       u <- random_uniform (-50) 50 ;;
       ret (max_irradiance * (1 - time_factor) + u)
     else ret 0) ;;
  let irradiance := Py.max 0 irradiance in
  ret {| id := (i + 1)%Z;
         timestamp := timestamp;
         temperature := Py.round temperature 1;
         relative_humidity_2m := Py.round (Py.max 0 (Py.min 100 humidity)) 1;
         wind_speed_10m := Py.round (Py.max 0 wind_speed) 1;
         pressure_msl := Py.round pressure 1;
         cloud_cover := Py.round (Py.max 0 (Py.min 100 cloud_cover)) 1;
         direct_normal_irradiance := Py.round irradiance 1;
         latitude := 6.86666;
         longitude := 80.01667;
         data_type := data_type |}.

Definition generate_sample_weather_data (limit : Z) (data_type : string)
  : M (list WeatherData) :=
  base_time <- datetime_now ;;
  for_append (Py.range limit) (weather_point base_time data_type).

(** [GET /weather/data]: [limit: int = 20], no bounds; the generator's
    [data_type] takes its default. *)
Definition get_weather_data (limit : param Z)
  : M (response (list WeatherData)) :=
  endpoint (Query 20 None None limit)
           (fun limit => generate_sample_weather_data limit "forecast").

(** [GET /weather-data] *)
Definition get_weather_data_alternative (limit : param Z) (data_type : option string)
  : M (response (list WeatherData)) :=
  endpoint
    (option_map (fun l => (l, str_param "forecast" data_type))
                (Query 20 None None limit))
    (fun '(limit, data_type) => generate_sample_weather_data limit data_type).

(** [GET /] *)
Definition root : M payload :=
  ret ([("message", Str "Weather API is running");
             ("status", Str "ok");
             ("endpoints", Strs ["/weather/data"; "/weather-data"])
           ]%string : payload).


End Service.

End WeatherExample.

(** ** The CORS configuration *)

Module Cors.








(** The routes the [@app.get] decorators declare. *)
Record route := { route_method : string; route_path : string }.

Definition GET (path : string) : route :=
  {| route_method := "GET"; route_path := path |}.

Definition weather_api_routes : list route :=
  [GET "/"; GET "/weather/data"; GET "/weather-data"]%string.

Definition solar_api_routes : list route :=
  [GET "/"; GET "/solar-predictions"; GET "/solar-predictions/forecast";
   GET "/solar-predictions/summary"; GET "/database/status"]%string.

Definition weather_example_routes : list route :=
  [GET "/"; GET "/weather/data"; GET "/weather-data"; GET "/health"]%string.


(** A preflight: [OPTIONS path], with the headers [Origin] and
    [Access-Control-Request-Method]. *)
Record preflight := {
  path : string;
  origin : string;
  request_method : string
}.

Definition preflight_to (r : route) (origin : string) : preflight :=
  {| path := route_path r; origin := origin; request_method := route_method r |}.







End Cors.

(** ** A concrete library, to run the services on

    [sin] is cut off after three terms of its series, [isoformat] prints
    the count of microseconds, and the random source cycles through ten
    numbers of [[0, 1)]. *)

Module Demo.

Definition series (x : Q) : Q :=
  Qred (x - x * x * x / 6 + x * x * x * x * x / 120)%Q.

Definition microseconds (t : datetime) : string :=
  NilZero.string_of_int (Z.to_int t).

Definition cycle (k : nat) : Q :=
  inject_Z ((Z.of_nat k * 7 + 3) mod 10) / 10.

Definition host : Host :=
  {| sin := series; isoformat := microseconds; random := cycle |}.

(** 2024-06-01, at 12:00 and at 22:30, counted from 0001-01-01. *)
Definition day : Z := 739037 * 24 * us_per_hour.
Definition noon : World := mkWorld (day + 12 * us_per_hour) 0.
Definition night : World := mkWorld (day + 22 * us_per_hour + 30 * us_per_minute) 0.

(** The same library with [sin] kept inside [[-1, 1]]. *)
Definition bounded_series (x : Q) : Q := Py.max (-1) (Py.min 1 (series x)).

Definition bounded_host : Host :=
  {| sin := bounded_series; isoformat := microseconds; random := cycle |}.

End Demo.

(** How many of the indices of [range(limit)] are stamped, by [T], with an
    hour in [6, 18]. *)
Definition daylight_records (T : Z -> datetime) (limit : Z) : nat :=
  List.length (filter (fun i => daylight (hour (T i))) (Py.range limit)).

(** The ids [1, 2, ..., limit]. *)
Definition ids (limit : Z) : list Z := map Z.of_nat (seq 1 (Z.to_nat limit)).

(** * Properties *)

(** ** Clamping and rounding *)

Section Numbers.

Local Open Scope Q_scope.

Lemma gt_true (b a : Q) : Py.gt b a = true -> a < b.
Proof.
  unfold Py.gt. intros H. apply negb_true_iff in H.
  apply Qnot_le_lt. intros Hle. apply Qle_bool_iff in Hle. congruence.
Qed.

Lemma gt_false (b a : Q) : Py.gt b a = false -> b <= a.
Proof.
  unfold Py.gt. intros H. apply negb_false_iff in H.
  now apply Qle_bool_iff.
Qed.

Lemma max_ge_l (a b : Q) : a <= Py.max a b.
Proof.
  unfold Py.max. destruct (Py.gt b a) eqn:E.
  - apply Qlt_le_weak. now apply gt_true.
  - apply Qle_refl.
Qed.

Lemma max_le (a b c : Q) : a <= c -> b <= c -> Py.max a b <= c.
Proof. unfold Py.max. now destruct (Py.gt b a). Qed.

Lemma min_le_l (a b : Q) : Py.min a b <= a.
Proof.
  unfold Py.min. destruct (Py.gt a b) eqn:E.
  - apply Qlt_le_weak. now apply gt_true.
  - apply Qle_refl.
Qed.

Lemma min_ge (a b c : Q) : c <= a -> c <= b -> c <= Py.min a b.
Proof. unfold Py.min. now destruct (Py.gt a b). Qed.

(** A value clamped with [max(lo, min(hi, x))] lies in [[lo, hi]]. *)
Lemma clamp_bounds (lo hi x : Q) :
  lo <= hi -> lo <= Py.max lo (Py.min hi x) <= hi.
Proof.
  intros Hlh. split.
  - apply max_ge_l.
  - apply max_le; [assumption | apply min_le_l].
Qed.

(** Clamping keeps a value that is already inside narrower bounds there. *)
Lemma clamp_keeps (lo hi a b x : Q) :
  lo <= a -> b <= hi -> a <= x <= b ->
  a <= Py.max lo (Py.min hi x) <= b.
Proof.
  intros Hla Hbh [Hax Hxb].
  assert (Hm : a <= Py.min hi x <= b).
  { split.
    - apply min_ge; [|assumption].
      apply Qle_trans with b; [now apply Qle_trans with x | assumption].
    - unfold Py.min. destruct (Py.gt hi x) eqn:E; [assumption|].
      apply gt_false in E. now apply Qle_trans with x. }
  destruct Hm as [Hm1 Hm2]. split.
  - unfold Py.max. destruct (Py.gt (Py.min hi x) lo) eqn:E; [assumption|].
    apply gt_false in E. now apply Qle_trans with (Py.min hi x).
  - apply max_le; [|assumption].
    apply Qle_trans with a; [assumption|]. now apply Qle_trans with x.
Qed.

Lemma round_half_even_ge (z : Z) (y : Q) :
  inject_Z z <= y -> (z <= Py.round_half_even y)%Z.
Proof.
  intros H. apply Qfloor_resp_le in H. rewrite Qfloor_Z in H.
  unfold Py.round_half_even.
  destruct (Qcompare _ _); [destruct (Z.even _)| |]; lia.
Qed.

Lemma round_half_even_le (z : Z) (y : Q) :
  y <= inject_Z z -> (Py.round_half_even y <= z)%Z.
Proof.
  intros H. pose proof (Qfloor_resp_le _ _ H) as Hf. rewrite Qfloor_Z in Hf.
  unfold Py.round_half_even. cbv zeta.
  destruct (Z.eq_dec (Qfloor y) z) as [E | NE].
  - assert (Hlt : y - inject_Z (Qfloor y) < 1 # 2).
    { rewrite E. apply Qle_lt_trans with 0; [|reflexivity].
      apply (Qplus_le_l _ _ (inject_Z z)). ring_simplify. exact H. }
    destruct (Qcompare_spec (y - inject_Z (Qfloor y)) (1 # 2)) as [He | Hl | Hg].
    + rewrite He in Hlt. now apply Qlt_irrefl in Hlt.
    + lia.
    + exfalso. apply (Qlt_irrefl (1 # 2)). now apply Qlt_trans with (y - inject_Z (Qfloor y)).
  - destruct (Qcompare _ _); [destruct (Z.even _)| |]; lia.
Qed.

Lemma pow10_pos (n : nat) : (0 < Py.pow10 n)%Z.
Proof. unfold Py.pow10. apply Z.pow_pos_nonneg; lia. Qed.

Lemma inject_pow10_pos (n : nat) : 0 < inject_Z (Py.pow10 n).
Proof. change 0 with (inject_Z 0). rewrite <- Zlt_Qlt. apply pow10_pos. Qed.

(** [round] never crosses an integer: an integer lower bound of [x] ... *)
Lemma round_ge (z : Z) (x : Q) (n : nat) :
  inject_Z z <= x -> inject_Z z <= Py.round x n.
Proof.
  intros H. unfold Py.round. rewrite Qred_correct.
  pose proof (inject_pow10_pos n) as Hp.
  apply Qle_shift_div_l; [assumption|].
  rewrite <- inject_Z_mult, <- Zle_Qle.
  apply round_half_even_ge. rewrite inject_Z_mult.
  apply Qmult_le_compat_r; [assumption | now apply Qlt_le_weak].
Qed.

(** ... and an integer upper bound of [x] bound its rounding too. *)
Lemma round_le (z : Z) (x : Q) (n : nat) :
  x <= inject_Z z -> Py.round x n <= inject_Z z.
Proof.
  intros H. unfold Py.round. rewrite Qred_correct.
  pose proof (inject_pow10_pos n) as Hp.
  apply Qle_shift_div_r; [assumption|].
  rewrite <- inject_Z_mult, <- Zle_Qle.
  apply round_half_even_le. rewrite inject_Z_mult.
  apply Qmult_le_compat_r; [assumption | now apply Qlt_le_weak].
Qed.

Lemma round_bounds (lo hi : Z) (x : Q) (n : nat) :
  inject_Z lo <= x <= inject_Z hi ->
  inject_Z lo <= Py.round x n <= inject_Z hi.
Proof. intros [Hl Hh]. split; [now apply round_ge | now apply round_le]. Qed.

Lemma round_zero (n : nat) : Py.round 0 n = 0.
Proof.
  unfold Py.round. pose proof (pow10_pos n) as Hp.
  replace (Py.round_half_even (0 * inject_Z (Py.pow10 n))) with 0%Z.
  - destruct (Py.pow10 n); try lia. reflexivity.
  - symmetry. apply Z.le_antisymm.
    + apply round_half_even_le. rewrite Qmult_0_l. apply Qle_refl.
    + apply round_half_even_ge. rewrite Qmult_0_l. apply Qle_refl.
Qed.

(** [random.uniform(a, b)] stays in [[a, b]] when [random()] is in [[0, 1)]. *)
Lemma uniform_bounds (a b u : Q) :
  a <= b -> 0 <= u < 1 -> a <= a + (b - a) * u <= b.
Proof.
  intros Hab [H0 H1].
  assert (Hd : 0 <= b - a).
  { apply (Qplus_le_l _ _ a). ring_simplify. exact Hab. }
  split.
  - rewrite <- (Qplus_0_r a) at 1. apply Qplus_le_r.
    now apply Qmult_le_0_compat.
  - apply Qle_trans with (a + (b - a) * 1).
    + apply Qplus_le_r. rewrite !(Qmult_comm (b - a)).
      apply Qmult_le_compat_r; [now apply Qlt_le_weak | assumption].
    + ring_simplify. apply Qle_refl.
Qed.

End Numbers.

(** ** Loops over [range] *)

Lemma range_nonpos (n : Z) : (n <= 0)%Z -> Py.range n = [].
Proof.
  intros H. unfold Py.range. replace (Z.to_nat n) with 0%nat by lia. reflexivity.
Qed.

Lemma range_length (n : Z) : List.length (Py.range n) = Z.to_nat n.
Proof. unfold Py.range. now rewrite length_map, length_seq. Qed.

Lemma range_nth_error (n : Z) (k : nat) (i : Z) :
  nth_error (Py.range n) k = Some i -> i = Z.of_nat k /\ (Z.of_nat k < n)%Z.
Proof.
  unfold Py.range. intros H.
  assert (Hk : (k < Z.to_nat n)%nat).
  { assert (Hs : nth_error (map Z.of_nat (seq 0 (Z.to_nat n))) k <> None)
      by congruence.
    apply nth_error_Some in Hs. now rewrite length_map, length_seq in Hs. }
  rewrite nth_error_map, nth_error_seq in H.
  apply Nat.ltb_lt in Hk as Hb. rewrite Hb in H. simpl in H.
  injection H as <-. split; [reflexivity | lia].
Qed.

Section Loop.

Context {A B : Type}.
Variable body : A -> M B.

(** What every run of the body guarantees holds of the record appended
    for each element, in order. *)
Lemma for_append_Forall2 (P : A -> B -> Prop) :
  (forall x w, P x (fst (body x w))) ->
  forall xs w, Forall2 P xs (fst (for_append xs body w)).
Proof.
  intros Hbody xs. induction xs as [| x xs IH]; intros w; simpl.
  - constructor.
  - unfold bind. specialize (Hbody x w).
    destruct (body x w) as [r w1]. specialize (IH w1).
    destruct (for_append xs body w1) as [rs w2]. simpl in *.
    now constructor.
Qed.

Lemma for_append_length (xs : list A) (w : World) :
  List.length (fst (for_append xs body w)) = List.length xs.
Proof.
  symmetry. apply (Forall2_length (R := fun _ _ => True)).
  now apply for_append_Forall2.
Qed.

End Loop.

Lemma Forall2_nth_error_r {A B} (P : A -> B -> Prop) xs ys k y :
  Forall2 P xs ys -> nth_error ys k = Some y ->
  exists x, nth_error xs k = Some x /\ P x y.
Proof.
  intros H. revert k. induction H as [| x0 y0 xs ys H0 H IH]; intros k Hk.
  - destruct k; discriminate.
  - destruct k as [| k]; simpl in *.
    + injection Hk as <-. eauto.
    + now apply IH.
Qed.

Lemma Forall2_Forall_r {A B} (P : A -> B -> Prop) (Q : B -> Prop) xs ys :
  Forall2 P xs ys -> (forall x y, P x y -> Q y) -> Forall Q ys.
Proof.
  intros H HPQ. induction H; constructor; eauto.
Qed.

Lemma Forall2_map_r {A B C} (f : A -> C) (g : B -> C) xs ys :
  Forall2 (fun x y => g y = f x) xs ys -> map g ys = map f xs.
Proof.
  intros H. induction H; simpl; congruence.
Qed.

Lemma map_succ_range (n : Z) : map (fun i => i + 1)%Z (Py.range n) = ids n.
Proof.
  unfold Py.range, ids. rewrite map_map, <- seq_shift, map_map.
  apply map_ext. intros a. lia.
Qed.

(** A generator is its loop, run with the clock read once. *)
Tactic Notation "generator" reference(g) :=
  unfold run, g, bind, datetime_now; cbn [fst snd].

(** Runs the body of a loop symbolically, on both sides of its [if]. *)
Tactic Notation "point" reference(p) :=
  unfold p, random_uniform, random_random, bind, ret;
  destruct (daylight _) eqn:?;
  cbn [fst snd drawn clock
       WeatherApi.id WeatherApi.timestamp WeatherApi.data_type
       WeatherApi.relative_humidity_2m WeatherApi.cloud_cover
       WeatherApi.direct_normal_irradiance
       SolarApi.id SolarApi.timestamp SolarApi.forecast_type
       SolarApi.predicted_power_kw SolarApi.weather_conditions
       SolarApi.relative_humidity_2m SolarApi.cloud_cover
       SolarApi.direct_normal_irradiance
       WeatherExample.id WeatherExample.timestamp WeatherExample.data_type
       WeatherExample.relative_humidity_2m WeatherExample.cloud_cover
       WeatherExample.direct_normal_irradiance].

(** ** Length and ids *)

Section Ids.

Context {host : Host}.
Implicit Types (now : datetime) (limit i : Z) (w : World).

Lemma weather_point_id now limit i w :
  WeatherApi.id (fst (WeatherApi.weather_point now limit i w)) = (i + 1)%Z.
Proof. point WeatherApi.weather_point; reflexivity. Qed.

Lemma realtime_point_id now limit i w :
  SolarApi.id (fst (SolarApi.realtime_point now limit i w)) = (i + 1)%Z.
Proof. point SolarApi.realtime_point; reflexivity. Qed.

Lemma forecast_point_id now i w :
  SolarApi.id (fst (SolarApi.forecast_point now i w)) = (i + 1)%Z.
Proof. point SolarApi.forecast_point; reflexivity. Qed.

Lemma sample_point_id now d i w :
  WeatherExample.id (fst (WeatherExample.weather_point now d i w)) = (i + 1)%Z.
Proof. point WeatherExample.weather_point; reflexivity. Qed.

Lemma weather_length limit w :
  List.length (run (WeatherApi.generate_weather_data limit) w) = Z.to_nat limit.
Proof.
  generator WeatherApi.generate_weather_data.
  now rewrite for_append_length, range_length.
Qed.

Lemma realtime_length limit w :
  List.length (run (SolarApi.generate_realtime_predictions limit) w)
  = Z.to_nat limit.
Proof.
  generator SolarApi.generate_realtime_predictions.
  now rewrite for_append_length, range_length.
Qed.

Lemma forecast_length limit w :
  List.length (run (SolarApi.generate_forecast_predictions limit) w)
  = Z.to_nat limit.
Proof.
  generator SolarApi.generate_forecast_predictions.
  now rewrite for_append_length, range_length.
Qed.

Lemma sample_length limit d w :
  List.length (run (WeatherExample.generate_sample_weather_data limit d) w)
  = Z.to_nat limit.
Proof.
  generator WeatherExample.generate_sample_weather_data.
  now rewrite for_append_length, range_length.
Qed.

Lemma weather_ids limit w :
  map WeatherApi.id (run (WeatherApi.generate_weather_data limit) w) = ids limit.
Proof.
  generator WeatherApi.generate_weather_data.
  rewrite <- map_succ_range. apply Forall2_map_r, for_append_Forall2.
  intros. apply weather_point_id.
Qed.

Lemma realtime_ids limit w :
  map SolarApi.id (run (SolarApi.generate_realtime_predictions limit) w)
  = ids limit.
Proof.
  generator SolarApi.generate_realtime_predictions.
  rewrite <- map_succ_range. apply Forall2_map_r, for_append_Forall2.
  intros. apply realtime_point_id.
Qed.

Lemma forecast_ids limit w :
  map SolarApi.id (run (SolarApi.generate_forecast_predictions limit) w)
  = ids limit.
Proof.
  generator SolarApi.generate_forecast_predictions.
  rewrite <- map_succ_range. apply Forall2_map_r, for_append_Forall2.
  intros. apply forecast_point_id.
Qed.

End Ids.

(** C1. For every limit in [1,100], each of [generate_weather_data],
    [generate_realtime_predictions] and [generate_forecast_predictions]
    returns exactly [limit] records, and the ids of the records are
    1, 2, ..., limit in this order (the k-th record has id k). *)
Theorem C1_limit_records_with_ids_in_order
  (host : Host) (w : World) (limit : Z) :
  (1 <= limit <= 100)%Z ->
  let weather := run (WeatherApi.generate_weather_data limit) w in
  let realtime := run (SolarApi.generate_realtime_predictions limit) w in
  let forecast := run (SolarApi.generate_forecast_predictions limit) w in
  (Z.of_nat (List.length weather) = limit
   /\ map WeatherApi.id weather = ids limit)
  /\ (Z.of_nat (List.length realtime) = limit
      /\ map SolarApi.id realtime = ids limit)
  /\ (Z.of_nat (List.length forecast) = limit
      /\ map SolarApi.id forecast = ids limit).
Proof.
  intros Hlimit. cbv zeta.
  rewrite weather_length, realtime_length, forecast_length.
  rewrite weather_ids, realtime_ids, forecast_ids.
  repeat split; lia.
Qed.

Lemma C1_witness :
  (1 <= 5 <= 100)%Z
  /\ map WeatherApi.id
         (run (WeatherApi.generate_weather_data (host := Demo.host) 5) Demo.noon)
     = [1; 2; 3; 4; 5]%Z.
Proof.
  split; [lia |].
  apply (C1_limit_records_with_ids_in_order Demo.host Demo.noon 5); lia.
Defined.

(** ** Endpoints *)

Lemma endpoint_accepts {P A} (p : P) (handler : P -> M A) (w : World) :
  run (endpoint (Some p) handler) w = OK_200 (run (handler p) w).
Proof.
  unfold run, endpoint, bind, ret. now destruct (handler p w).
Qed.

Lemma endpoint_rejects {P A} (handler : P -> M A) (w : World) :
  endpoint None handler w = (Unprocessable_422, w).
Proof. reflexivity. Qed.

Lemma Query_in_bounds (default lo hi v : Z) :
  (lo <= v <= hi)%Z -> Query default (Some lo) (Some hi) (Given v) = Some v.
Proof.
  intros H. unfold Query, within.
  replace (lo <=? v)%Z with true by (symmetry; apply Z.leb_le; lia).
  replace (v <=? hi)%Z with true by (symmetry; apply Z.leb_le; lia).
  reflexivity.
Qed.

Lemma Query_out_of_bounds (default lo hi v : Z) :
  (v < lo \/ hi < v)%Z -> Query default (Some lo) (Some hi) (Given v) = None.
Proof.
  intros H. unfold Query, within.
  destruct (Z.leb_spec lo v), (Z.leb_spec v hi); try reflexivity; lia.
Qed.

Lemma Query_unbounded (default v : Z) :
  Query default None None (Given v) = Some v.
Proof. reflexivity. Qed.

(** ** Timestamps *)

Lemma range_Forall2_nth {B} (P : Z -> B -> Prop) (n : Z) (l : list B) k r :
  Forall2 P (Py.range n) l -> nth_error l k = Some r -> P (Z.of_nat k) r.
Proof.
  intros HF Hk. destruct (Forall2_nth_error_r _ _ _ _ _ HF Hk) as (i & Hi & HP).
  apply range_nth_error in Hi as [-> _]. exact HP.
Qed.

Section Timestamps.

Context {host : Host}.
Implicit Types (now : datetime) (limit i : Z) (w : World).

Lemma weather_point_timestamp now limit i w :
  WeatherApi.timestamp (fst (WeatherApi.weather_point now limit i w))
  = isoformat (now - (limit - i - 1) * (5 * us_per_minute))%Z.
Proof.
  point WeatherApi.weather_point; f_equal; unfold sub, minutes; lia.
Qed.

Lemma realtime_point_timestamp now limit i w :
  SolarApi.timestamp (fst (SolarApi.realtime_point now limit i w))
  = isoformat (now - (limit - i - 1) * (5 * us_per_minute))%Z.
Proof.
  point SolarApi.realtime_point; f_equal; unfold sub, minutes; lia.
Qed.

Lemma forecast_point_timestamp now i w :
  let r := fst (SolarApi.forecast_point now i w) in
  SolarApi.timestamp r = isoformat (now + i * us_per_hour)%Z
  /\ SolarApi.forecast_type r = Some "hourly"%string.
Proof.
  point SolarApi.forecast_point; split; reflexivity.
Qed.

Lemma sample_point_timestamp now d i w :
  WeatherExample.timestamp (fst (WeatherExample.weather_point now d i w))
  = (now + i * us_per_hour)%Z.
Proof.
  point WeatherExample.weather_point; reflexivity.
Qed.

Lemma weather_timestamps limit w k r :
  nth_error (run (WeatherApi.generate_weather_data limit) w) k = Some r ->
  WeatherApi.timestamp r
  = isoformat (clock w - (limit - Z.of_nat k - 1) * (5 * us_per_minute))%Z.
Proof.
  generator WeatherApi.generate_weather_data. intros Hk.
  eapply (range_Forall2_nth
           (fun i r => WeatherApi.timestamp r = isoformat (_ - (_ - i - 1) * _)%Z)); [| exact Hk].
  apply for_append_Forall2. intros. apply weather_point_timestamp.
Qed.

Lemma realtime_timestamps limit w k r :
  nth_error (run (SolarApi.generate_realtime_predictions limit) w) k = Some r ->
  SolarApi.timestamp r
  = isoformat (clock w - (limit - Z.of_nat k - 1) * (5 * us_per_minute))%Z.
Proof.
  generator SolarApi.generate_realtime_predictions. intros Hk.
  eapply (range_Forall2_nth
           (fun i r => SolarApi.timestamp r = isoformat (_ - (_ - i - 1) * _)%Z)); [| exact Hk].
  apply for_append_Forall2. intros. apply realtime_point_timestamp.
Qed.

Lemma forecast_timestamps limit w k r :
  nth_error (run (SolarApi.generate_forecast_predictions limit) w) k = Some r ->
  SolarApi.timestamp r = isoformat (clock w + Z.of_nat k * us_per_hour)%Z
  /\ SolarApi.forecast_type r = Some "hourly"%string.
Proof.
  generator SolarApi.generate_forecast_predictions. intros Hk.
  eapply (range_Forall2_nth
           (fun i r => SolarApi.timestamp r = isoformat (_ + i * _)%Z
                       /\ SolarApi.forecast_type r = Some "hourly"%string)); [| exact Hk].
  apply for_append_Forall2. intros. apply forecast_point_timestamp.
Qed.

Lemma sample_timestamps limit d w k r :
  nth_error (run (WeatherExample.generate_sample_weather_data limit d) w) k
  = Some r ->
  WeatherExample.timestamp r = (clock w + Z.of_nat k * us_per_hour)%Z.
Proof.
  generator WeatherExample.generate_sample_weather_data. intros Hk.
  eapply (range_Forall2_nth
           (fun i r => WeatherExample.timestamp r = (_ + i * _)%Z)); [| exact Hk].
  apply for_append_Forall2. intros. apply sample_point_timestamp.
Qed.

End Timestamps.

(** C2 (as the code has it).  For every limit in [1,100] and every clock
    reading [now], the record at index [k] of the [/weather/data] response
    of the CORS-fix weather service, and of the realtime solar response,
    has the timestamp [now - (limit - k - 1) * 5 minutes]: the instants
    ascend strictly in steps of 5 minutes and the last one is [now].  In
    [weather_api_example.py] the record at index [k] of the
    [/weather/data] response has the timestamp [now + k hours]. *)
Theorem C2_timestamps_backward_from_now_in_the_fixed_services
  (host : Host) (w : World) (limit : Z) :
  (1 <= limit <= 100)%Z ->
  let now := clock w in
  let T := fun i : Z => (now - (limit - i - 1) * (5 * us_per_minute))%Z in
  (exists l,
      run (WeatherApi.get_weather_data (Given limit)) w = OK_200 l
      /\ Z.of_nat (List.length l) = limit
      /\ forall k r, nth_error l k = Some r ->
                     WeatherApi.timestamp r = isoformat (T (Z.of_nat k)))
  /\ (exists l,
         run (SolarApi.get_solar_predictions (Given limit)) w = OK_200 l
         /\ Z.of_nat (List.length l) = limit
         /\ forall k r, nth_error l k = Some r ->
                        SolarApi.timestamp r = isoformat (T (Z.of_nat k)))
  /\ (forall i, (T i < T (i + 1))%Z /\ T (i + 1) = add (T i) (minutes 5))
  /\ T (limit - 1)%Z = now
  /\ (exists l,
         run (WeatherExample.get_weather_data (Given limit)) w = OK_200 l
         /\ Z.of_nat (List.length l) = limit
         /\ forall k r, nth_error l k = Some r ->
                        WeatherExample.timestamp r
                        = add now (hours (Z.of_nat k))).
Proof.
  intros Hlimit now T. repeat apply conj.
  - eexists. unfold WeatherApi.get_weather_data.
    rewrite Query_in_bounds by lia. rewrite endpoint_accepts.
    split; [reflexivity |]. rewrite weather_length. split; [lia |].
    intros k r. apply weather_timestamps.
  - eexists. unfold SolarApi.get_solar_predictions.
    rewrite Query_in_bounds by lia. rewrite endpoint_accepts.
    split; [reflexivity |]. rewrite realtime_length. split; [lia |].
    intros k r. apply realtime_timestamps.
  - intros i. subst T. cbv beta. unfold add, minutes, us_per_minute. lia.
  - subst T. cbv beta. lia.
  - eexists. unfold WeatherExample.get_weather_data.
    rewrite Query_unbounded, endpoint_accepts.
    split; [reflexivity |]. rewrite sample_length. split; [lia |].
    intros k r. apply sample_timestamps.
Qed.

Lemma C2_witness :
  (1 <= 3 <= 100)%Z
  /\ exists l,
      run (WeatherApi.get_weather_data (host := Demo.host) (Given 3%Z)) Demo.noon
      = OK_200 l
      /\ Z.of_nat (List.length l) = 3%Z
      /\ forall k r, nth_error l k = Some r ->
           WeatherApi.timestamp r
           = Demo.microseconds
               (clock Demo.noon - (3 - Z.of_nat k - 1) * (5 * us_per_minute))%Z.
Proof.
  split; [lia |].
  apply (C2_timestamps_backward_from_now_in_the_fixed_services
           Demo.host Demo.noon 3); lia.
Defined.

(** In [weather_api_example.py], [GET /weather/data?limit=2] at noon: the
    record at index 0 is stamped [now], not [now - 5 minutes]. *)
Lemma C2_counterexample :
  exists r rest,
    run (WeatherExample.get_weather_data (host := Demo.host) (Given 2%Z)) Demo.noon
    = OK_200 (r :: rest)
    /\ WeatherExample.timestamp r = clock Demo.noon
    /\ WeatherExample.timestamp r
       <> (clock Demo.noon - (2 - 0 - 1) * (5 * us_per_minute))%Z.
Proof.
  do 2 eexists. split; [vm_compute; reflexivity |].
  split; [reflexivity | discriminate].
Qed.

(** C7. For every limit in [1,100] and every clock reading [now],
    [generate_forecast_predictions] stamps the record at index [k] with
    [now + k hours], so the instants increase strictly by exactly one hour,
    and every record's [forecast_type] is ["hourly"]. *)
Theorem C7_forecast_hourly_from_now
  (host : Host) (w : World) (limit : Z) :
  (1 <= limit <= 100)%Z ->
  let now := clock w in
  let T := fun i : Z => add now (hours i) in
  (exists l,
      run (SolarApi.get_forecast_predictions (Given limit)) w = OK_200 l
      /\ l = run (SolarApi.generate_forecast_predictions limit) w
      /\ Z.of_nat (List.length l) = limit
      /\ forall k r, nth_error l k = Some r ->
                     SolarApi.timestamp r = isoformat (T (Z.of_nat k))
                     /\ SolarApi.forecast_type r = Some "hourly"%string)
  /\ (forall i, (T i < T (i + 1))%Z /\ T (i + 1) = add (T i) (hours 1))
  /\ T 0%Z = now.
Proof.
  intros Hlimit now T. repeat apply conj.
  - eexists. unfold SolarApi.get_forecast_predictions.
    rewrite Query_in_bounds by lia. rewrite endpoint_accepts.
    split; [reflexivity |]. split; [reflexivity |].
    rewrite forecast_length. split; [lia |].
    intros k r. apply forecast_timestamps.
  - intros i. subst T. cbv beta.
    unfold add, hours, us_per_hour, us_per_minute. lia.
  - subst T. cbv beta. unfold add, hours. lia.
Qed.

Lemma C7_witness :
  (1 <= 3 <= 100)%Z
  /\ exists l,
      run (SolarApi.get_forecast_predictions (host := Demo.host) (Given 3%Z))
          Demo.night = OK_200 l
      /\ l = run (SolarApi.generate_forecast_predictions (host := Demo.host) 3)
                 Demo.night
      /\ Z.of_nat (List.length l) = 3%Z
      /\ forall k r, nth_error l k = Some r ->
           SolarApi.timestamp r
           = Demo.microseconds (add (clock Demo.night) (hours (Z.of_nat k)))
           /\ SolarApi.forecast_type r = Some "hourly"%string.
Proof.
  split; [lia |].
  apply (C7_forecast_hourly_from_now Demo.host Demo.night 3); lia.
Defined.

(** ** Daylight, clamps and bounds of the generated fields *)

Lemma daylight_false (h : Z) : ~ (6 <= h <= 18)%Z -> daylight h = false.
Proof.
  intros H. unfold daylight.
  destruct (Z.leb_spec 6 h), (Z.leb_spec h 18); try reflexivity. lia.
Qed.

Section Fields.

Context {host : Host}.
Implicit Types (now : datetime) (limit i : Z) (w : World).
Local Open Scope Q_scope.

Lemma realtime_point_night now limit i w :
  let t := sub now (minutes ((limit - i - 1) * 5)%Z) in
  let r := fst (SolarApi.realtime_point now limit i w) in
  SolarApi.timestamp r = isoformat t
  /\ (daylight (hour t) = false ->
      SolarApi.predicted_power_kw r = 0
      /\ SolarApi.direct_normal_irradiance (SolarApi.weather_conditions r) = 0).
Proof.
  point SolarApi.realtime_point; (split; [reflexivity |]); intros E;
    [congruence | now rewrite !round_zero].
Qed.

Lemma forecast_point_night now i w :
  let t := add now (hours i) in
  let r := fst (SolarApi.forecast_point now i w) in
  SolarApi.timestamp r = isoformat t
  /\ (daylight (hour t) = false ->
      SolarApi.predicted_power_kw r = 0
      /\ SolarApi.direct_normal_irradiance (SolarApi.weather_conditions r) = 0).
Proof.
  point SolarApi.forecast_point; (split; [reflexivity |]); intros E;
    [congruence | now rewrite !round_zero].
Qed.

(** The fields clamped with [max(0, .)] are not negative, whatever the
    draws and whatever [sin] returns. *)
Lemma round_max_nonneg (x : Q) (n : nat) : 0 <= Py.round (Py.max 0 x) n.
Proof. apply (round_ge 0), max_ge_l. Qed.

Lemma round_zero_nonneg (n : nat) : 0 <= Py.round 0 n.
Proof. apply (round_ge 0), Qle_refl. Qed.

Lemma weather_point_nonneg now limit i w :
  0 <= WeatherApi.direct_normal_irradiance
         (fst (WeatherApi.weather_point now limit i w)).
Proof.
  point WeatherApi.weather_point;
    [apply round_max_nonneg | apply round_zero_nonneg].
Qed.

Lemma sample_point_nonneg now d i w :
  0 <= WeatherExample.direct_normal_irradiance
         (fst (WeatherExample.weather_point now d i w)).
Proof.
  point WeatherExample.weather_point; apply round_max_nonneg.
Qed.

Lemma realtime_point_nonneg now limit i w :
  let r := fst (SolarApi.realtime_point now limit i w) in
  0 <= SolarApi.predicted_power_kw r
  /\ 0 <= SolarApi.direct_normal_irradiance (SolarApi.weather_conditions r).
Proof.
  point SolarApi.realtime_point;
    [split; apply round_max_nonneg | split; apply round_zero_nonneg].
Qed.

Lemma forecast_point_nonneg now i w :
  let r := fst (SolarApi.forecast_point now i w) in
  0 <= SolarApi.predicted_power_kw r
  /\ 0 <= SolarApi.direct_normal_irradiance (SolarApi.weather_conditions r).
Proof.
  point SolarApi.forecast_point;
    [split; apply round_max_nonneg | split; apply round_zero_nonneg].
Qed.

(** [random()] is in [[0, 1)]. *)
Hypothesis random_unit : forall k, 0 <= random k < 1.

Lemma round_uniform (hi : Z) (k : nat) (n : nat) :
  (0 <= hi)%Z ->
  0 <= Py.round (0 + (inject_Z hi - 0) * random k) n <= inject_Z hi.
Proof.
  intros H. apply (round_bounds 0 hi), uniform_bounds.
  - change 0 with (inject_Z 0). now rewrite <- Zle_Qle.
  - apply random_unit.
Qed.

Lemma weather_point_bounds now limit i w :
  let r := fst (WeatherApi.weather_point now limit i w) in
  30 <= WeatherApi.relative_humidity_2m r <= 90
  /\ 0 <= WeatherApi.cloud_cover r <= 80.
Proof.
  point WeatherApi.weather_point; split;
    first [ apply (round_bounds 30 90), clamp_bounds; discriminate
          | apply (round_uniform 80); discriminate ].
Qed.

Lemma realtime_point_bounds now limit i w :
  let c := SolarApi.weather_conditions
             (fst (SolarApi.realtime_point now limit i w)) in
  30 <= SolarApi.relative_humidity_2m c <= 90
  /\ 0 <= SolarApi.cloud_cover c <= 60.
Proof.
  point SolarApi.realtime_point; split;
    first [ apply (round_bounds 30 90), clamp_bounds; discriminate
          | apply (round_uniform 60); discriminate ].
Qed.

Lemma forecast_point_bounds now i w :
  let c := SolarApi.weather_conditions
             (fst (SolarApi.forecast_point now i w)) in
  35 <= SolarApi.relative_humidity_2m c <= 85
  /\ 0 <= SolarApi.cloud_cover c <= 50.
Proof.
  point SolarApi.forecast_point; split;
    first [ apply (round_bounds 35 85), clamp_bounds; discriminate
          | apply (round_uniform 50); discriminate ].
Qed.

Lemma sample_point_bounds now d i w :
  let r := fst (WeatherExample.weather_point now d i w) in
  40 <= WeatherExample.relative_humidity_2m r <= 80
  /\ 0 <= WeatherExample.cloud_cover r <= 100.
Proof.
  assert (Hhum : forall k, 40 <= 60 + (-20 + (20 - -20) * random k) <= 80).
  { intros k. destruct (uniform_bounds (-20) 20 (random k)) as [Hl Hh];
      [discriminate | apply random_unit |].
    split.
    - apply Qle_trans with (60 + -20); [discriminate | now apply Qplus_le_r].
    - apply Qle_trans with (60 + 20); [now apply Qplus_le_r | discriminate]. }
  point WeatherExample.weather_point; split;
    first [ apply (round_bounds 40 80), (clamp_keeps 0 100 40 80);
            [discriminate | discriminate | apply Hhum]
          | apply (round_bounds 0 100), clamp_bounds; discriminate ].
Qed.

End Fields.

Section Night.

Context {host : Host}.

Lemma realtime_night limit w k r :
  nth_error (run (SolarApi.generate_realtime_predictions limit) w) k = Some r ->
  let t := sub (clock w) (minutes ((limit - Z.of_nat k - 1) * 5)) in
  SolarApi.timestamp r = isoformat t
  /\ (daylight (hour t) = false ->
      SolarApi.predicted_power_kw r = 0%Q
      /\ SolarApi.direct_normal_irradiance (SolarApi.weather_conditions r) = 0%Q).
Proof.
  generator SolarApi.generate_realtime_predictions. intros Hk.
  eapply (range_Forall2_nth
            (fun i r =>
               let t := sub (clock w) (minutes ((limit - i - 1) * 5)) in
               SolarApi.timestamp r = isoformat t
               /\ (daylight (hour t) = false ->
                   SolarApi.predicted_power_kw r = 0%Q
                   /\ SolarApi.direct_normal_irradiance
                        (SolarApi.weather_conditions r) = 0%Q)));
    [| exact Hk].
  apply for_append_Forall2. intros. apply realtime_point_night.
Qed.

Lemma forecast_night limit w k r :
  nth_error (run (SolarApi.generate_forecast_predictions limit) w) k = Some r ->
  let t := add (clock w) (hours (Z.of_nat k)) in
  SolarApi.timestamp r = isoformat t
  /\ (daylight (hour t) = false ->
      SolarApi.predicted_power_kw r = 0%Q
      /\ SolarApi.direct_normal_irradiance (SolarApi.weather_conditions r) = 0%Q).
Proof.
  generator SolarApi.generate_forecast_predictions. intros Hk.
  eapply (range_Forall2_nth
            (fun i r =>
               let t := add (clock w) (hours i) in
               SolarApi.timestamp r = isoformat t
               /\ (daylight (hour t) = false ->
                   SolarApi.predicted_power_kw r = 0%Q
                   /\ SolarApi.direct_normal_irradiance
                        (SolarApi.weather_conditions r) = 0%Q)));
    [| exact Hk].
  apply for_append_Forall2. intros. apply forecast_point_night.
Qed.

End Night.

(** C3. Take the record at any index [k] of the output of a solar
    generator, with [t] the instant its timestamp prints
    ([now - (limit - k - 1) * 5 minutes] in the realtime series,
    [now + k hours] in the forecast).  If the hour of [t] lies outside
    [6, 18], then [predicted_power_kw] is 0 and
    [direct_normal_irradiance] is 0, whatever the draws. *)
Theorem C3_zero_outside_daylight
  (host : Host) (w : World) (limit : Z)
  (k : nat) (r : SolarApi.SolarPrediction) (t : datetime) :
  (nth_error (run (SolarApi.generate_realtime_predictions limit) w) k = Some r
   /\ t = sub (clock w) (minutes ((limit - Z.of_nat k - 1) * 5)))
  \/ (nth_error (run (SolarApi.generate_forecast_predictions limit) w) k = Some r
      /\ t = add (clock w) (hours (Z.of_nat k))) ->
  ~ (6 <= hour t <= 18)%Z ->
  SolarApi.timestamp r = isoformat t
  /\ SolarApi.predicted_power_kw r = 0%Q
  /\ SolarApi.direct_normal_irradiance (SolarApi.weather_conditions r) = 0%Q.
Proof.
  intros [[Hk ->] | [Hk ->]] Hnight; apply daylight_false in Hnight.
  - destruct (realtime_night _ _ _ _ Hk) as [Ht Hz]. auto.
  - destruct (forecast_night _ _ _ _ Hk) as [Ht Hz]. auto.
Qed.

Lemma C3_witness :
  let t := sub (clock Demo.night) (minutes ((2 - Z.of_nat 0 - 1) * 5)) in
  exists r,
    nth_error
      (run (SolarApi.generate_realtime_predictions (host := Demo.host) 2)
           Demo.night) 0 = Some r
    /\ ~ (6 <= hour t <= 18)%Z
    /\ SolarApi.predicted_power_kw r = 0%Q
    /\ SolarApi.direct_normal_irradiance (SolarApi.weather_conditions r) = 0%Q.
Proof.
  intros t. eexists.
  assert (Hnight : ~ (6 <= hour t <= 18)%Z).
  { intros [_ H]. vm_compute in H. apply H. reflexivity. }
  split; [vm_compute; reflexivity |]. split; [exact Hnight |].
  apply (C3_zero_outside_daylight Demo.host Demo.night 2 0 _ t).
  - left. split; [vm_compute |]; reflexivity.
  - exact Hnight.
Defined.

(** A property every run of the loop's body guarantees holds of every
    record of the generator's output. *)
Lemma for_append_Forall {A B} (body : A -> M B) (Q : B -> Prop) :
  (forall x w, Q (fst (body x w))) ->
  forall xs w, Forall Q (fst (for_append xs body w)).
Proof.
  intros H xs w.
  apply (Forall2_Forall_r (fun _ r => Q r) Q xs); [| auto].
  now apply for_append_Forall2.
Qed.

(** C4. In every record of every generator, and for every sequence of
    draws (no bound on the draws is assumed, nor anything about [sin]),
    [predicted_power_kw >= 0] and [direct_normal_irradiance >= 0]: the
    clamp [max(0, .)] is the last step before rounding.  The weather
    records have no [predicted_power_kw]. *)
Theorem C4_power_and_irradiance_nonnegative
  (host : Host) (w : World) (limit : Z) (data_type : string) :
  Forall (fun r => 0 <= SolarApi.predicted_power_kw r
                   /\ 0 <= SolarApi.direct_normal_irradiance
                             (SolarApi.weather_conditions r))%Q
         (run (SolarApi.generate_realtime_predictions limit) w)
  /\ Forall (fun r => 0 <= SolarApi.predicted_power_kw r
                      /\ 0 <= SolarApi.direct_normal_irradiance
                                (SolarApi.weather_conditions r))%Q
            (run (SolarApi.generate_forecast_predictions limit) w)
  /\ Forall (fun r => 0 <= WeatherApi.direct_normal_irradiance r)%Q
            (run (WeatherApi.generate_weather_data limit) w)
  /\ Forall (fun r => 0 <= WeatherExample.direct_normal_irradiance r)%Q
            (run (WeatherExample.generate_sample_weather_data limit data_type) w).
Proof.
  repeat apply conj.
  - generator SolarApi.generate_realtime_predictions.
    apply for_append_Forall. intros. apply realtime_point_nonneg.
  - generator SolarApi.generate_forecast_predictions.
    apply for_append_Forall. intros. apply forecast_point_nonneg.
  - generator WeatherApi.generate_weather_data.
    apply for_append_Forall. intros. apply weather_point_nonneg.
  - generator WeatherExample.generate_sample_weather_data.
    apply for_append_Forall. intros. apply sample_point_nonneg.
Qed.

(** C5. With [random()] in [0, 1), in every record of every generator the
    humidity and the cloud cover lie within the bounds of the variant:
    humidity in [30, 90] and cloud cover in [0, 100] for the weather
    records (both files), humidity in [30, 90] and cloud cover in [0, 60]
    for the realtime solar records, humidity in [35, 85] and cloud cover
    in [0, 50] for the forecast records. *)
Theorem C5_humidity_and_cloud_cover_within_bounds
  (host : Host) (w : World) (limit : Z) (data_type : string) :
  (forall k, 0 <= random k < 1)%Q ->
  Forall (fun r => 30 <= WeatherApi.relative_humidity_2m r <= 90
                   /\ 0 <= WeatherApi.cloud_cover r <= 100)%Q
         (run (WeatherApi.generate_weather_data limit) w)
  /\ Forall (fun r =>
               let c := SolarApi.weather_conditions r in
               30 <= SolarApi.relative_humidity_2m c <= 90
               /\ 0 <= SolarApi.cloud_cover c <= 60)%Q
            (run (SolarApi.generate_realtime_predictions limit) w)
  /\ Forall (fun r =>
               let c := SolarApi.weather_conditions r in
               35 <= SolarApi.relative_humidity_2m c <= 85
               /\ 0 <= SolarApi.cloud_cover c <= 50)%Q
            (run (SolarApi.generate_forecast_predictions limit) w)
  /\ Forall (fun r => 30 <= WeatherExample.relative_humidity_2m r <= 90
                      /\ 0 <= WeatherExample.cloud_cover r <= 100)%Q
            (run (WeatherExample.generate_sample_weather_data limit data_type) w).
Proof.
  intros Hrandom. repeat apply conj.
  - generator WeatherApi.generate_weather_data.
    apply for_append_Forall. intros i w0.
    destruct (weather_point_bounds Hrandom (clock w) limit i w0)
      as [Hh [Hc0 Hc1]].
    split; [exact Hh |]. split; [exact Hc0 |].
    apply Qle_trans with 80%Q; [exact Hc1 | discriminate].
  - generator SolarApi.generate_realtime_predictions.
    apply for_append_Forall. intros. now apply realtime_point_bounds.
  - generator SolarApi.generate_forecast_predictions.
    apply for_append_Forall. intros. now apply forecast_point_bounds.
  - generator WeatherExample.generate_sample_weather_data.
    apply for_append_Forall. intros i w0.
    destruct (sample_point_bounds Hrandom (clock w) data_type i w0)
      as [[Hh0 Hh1] Hc].
    split; [| exact Hc]. split.
    + apply Qle_trans with 40%Q; [discriminate | exact Hh0].
    + apply Qle_trans with 80%Q; [exact Hh1 | discriminate].
Qed.

Lemma cycle_unit (k : nat) : (0 <= Demo.cycle k < 1)%Q.
Proof.
  unfold Demo.cycle.
  pose proof (Z.mod_pos_bound (Z.of_nat k * 7 + 3) 10 ltac:(lia)) as [H0 H1].
  split.
  - apply Qle_shift_div_l; [reflexivity |]. rewrite Qmult_0_l.
    change 0%Q with (inject_Z 0). now rewrite <- Zle_Qle.
  - apply Qlt_shift_div_r; [reflexivity |]. rewrite Qmult_1_l.
    change 10%Q with (inject_Z 10). now rewrite <- Zlt_Qlt.
Qed.

Lemma C5_witness :
  Forall (fun r => 30 <= WeatherApi.relative_humidity_2m r <= 90
                   /\ 0 <= WeatherApi.cloud_cover r <= 100)%Q
         (run (WeatherApi.generate_weather_data (host := Demo.host) 4) Demo.noon).
Proof.
  apply (C5_humidity_and_cloud_cover_within_bounds
           Demo.host Demo.noon 4 "forecast" cycle_unit).
Defined.

(** ** Validation of [limit] *)

Lemma for_append_nil {A B} (body : A -> M B) (w : World) :
  for_append [] body w = ([], w).
Proof. reflexivity. Qed.

(** C6 (as the code has it).  In the CORS-fix services, a request to
    [/weather/data] (and to [/weather-data], [/solar-predictions],
    [/solar-predictions/forecast]) with an integer limit outside [1,100]
    is answered 422 and the generator does not run: the world is left as
    it was.  The generator validates nothing: called with such a limit it
    returns max(0, limit) records, when the calendar holds all their
    timestamps.  In [weather_api_example.py] the limit is declared without
    bounds, and [/weather/data] answers 200 with the generator's output
    for such a limit, again when the calendar holds the timestamps. *)
Theorem C6_limit_out_of_range
  (host : Host) (w : World) (limit : Z) (data_type : option string) :
  (limit < 1 \/ 100 < limit)%Z ->
  WeatherApi.get_weather_data (Given limit) w = (Unprocessable_422, w)
  /\ WeatherApi.get_weather_data_alt (Given limit) data_type w
     = (Unprocessable_422, w)
  /\ SolarApi.get_solar_predictions (Given limit) w = (Unprocessable_422, w)
  /\ SolarApi.get_forecast_predictions (Given limit) w = (Unprocessable_422, w)
  /\ ((forall i, (0 <= i < limit)%Z ->
                 in_calendar (clock w - (limit - i - 1) * (5 * us_per_minute))) ->
      List.length (run (WeatherApi.generate_weather_data limit) w)
      = Z.to_nat limit)
  /\ ((forall i, (0 <= i < limit)%Z ->
                 in_calendar (clock w + i * us_per_hour)) ->
      run (WeatherExample.get_weather_data (Given limit)) w
      = OK_200 (run (WeatherExample.generate_sample_weather_data limit "forecast") w)
      /\ List.length
           (run (WeatherExample.generate_sample_weather_data limit "forecast") w)
         = Z.to_nat limit).
Proof.
  intros Hlimit.
  unfold WeatherApi.get_weather_data, WeatherApi.get_weather_data_alt,
    SolarApi.get_solar_predictions, SolarApi.get_forecast_predictions,
    WeatherExample.get_weather_data.
  rewrite !Query_out_of_bounds by lia. cbn [option_map].
  rewrite !endpoint_rejects, Query_unbounded, endpoint_accepts.
  rewrite weather_length, sample_length. repeat split.
Qed.

Lemma C6_witness :
  (101 < 1 \/ 100 < 101)%Z
  /\ WeatherApi.get_weather_data (host := Demo.host) (Given 101%Z) Demo.noon
     = (Unprocessable_422, Demo.noon)
  /\ (forall i, (0 <= i < 101)%Z ->
                in_calendar (clock Demo.noon + i * us_per_hour))
  /\ List.length
       (run (WeatherExample.generate_sample_weather_data
               (host := Demo.host) 101 "forecast") Demo.noon) = 101%nat.
Proof.
  assert (Hcal : forall i, (0 <= i < 101)%Z ->
                           in_calendar (clock Demo.noon + i * us_per_hour)).
  { intros i Hi. unfold in_calendar, earliest, latest, Demo.noon, Demo.day,
      us_per_hour, us_per_minute. cbn [clock]. lia. }
  destruct (C6_limit_out_of_range Demo.host Demo.noon 101 None)
    as (H422 & _ & _ & _ & _ & Hexample); [lia |].
  split; [lia |]. split; [exact H422 |]. split; [exact Hcal |].
  exact (proj2 (Hexample Hcal)).
Defined.

(** [weather_api_example.py]: [GET /weather/data?limit=0] is answered 200
    with an empty array, and [?limit=101] is answered 200 with 101
    records. *)
Lemma C6_counterexample :
  run (WeatherExample.get_weather_data (host := Demo.host) (Given 0%Z)) Demo.noon
  = OK_200 []
  /\ exists l,
      run (WeatherExample.get_weather_data (host := Demo.host) (Given 101%Z))
          Demo.noon = OK_200 l
      /\ List.length l = 101%nat.
Proof.
  split; [reflexivity |].
  eexists. unfold WeatherExample.get_weather_data.
  rewrite Query_unbounded, endpoint_accepts. split; [reflexivity |].
  now rewrite sample_length.
Qed.

(** C9. For every integer limit <= 0 each generator returns the empty
    list: the clock is read, the loop body never runs, no number is
    drawn.  So in [weather_api_example.py], which puts no bounds on the
    limit, [GET /weather/data] with such a limit is answered 200 with an
    empty array. *)
Theorem C9_nonpositive_limit_gives_empty_list
  (host : Host) (w : World) (limit : Z) (data_type : string) :
  (limit <= 0)%Z ->
  WeatherApi.generate_weather_data limit w = ([], w)
  /\ SolarApi.generate_realtime_predictions limit w = ([], w)
  /\ SolarApi.generate_forecast_predictions limit w = ([], w)
  /\ WeatherExample.generate_sample_weather_data limit data_type w = ([], w)
  /\ WeatherExample.get_weather_data (Given limit) w = (OK_200 [], w).
Proof.
  intros Hlimit.
  unfold WeatherExample.get_weather_data, endpoint.
  rewrite Query_unbounded.
  unfold WeatherApi.generate_weather_data,
    SolarApi.generate_realtime_predictions,
    SolarApi.generate_forecast_predictions,
    WeatherExample.generate_sample_weather_data, bind, datetime_now, ret.
  rewrite (range_nonpos limit Hlimit). cbn. repeat split.
Qed.

Lemma C9_witness :
  (0 <= 0)%Z
  /\ WeatherExample.get_weather_data (host := Demo.host) (Given 0%Z) Demo.noon
     = (OK_200 [], Demo.noon).
Proof.
  split; [lia |].
  apply (C9_nonpositive_limit_gives_empty_list Demo.host Demo.noon 0 "forecast").
  lia.
Defined.

(** ** [data_type] in the CORS-fix weather service *)

Lemma weather_point_data_type {host : Host} now limit i w :
  WeatherApi.data_type (fst (WeatherApi.weather_point now limit i w))
  = "forecast"%string.
Proof. point WeatherApi.weather_point; reflexivity. Qed.

(** C10. In the CORS-fix weather service the response of [/weather-data]
    does not depend on [data_type]: for the same limit, clock and draws,
    any two values of [data_type] (absent or given) give the same
    response and leave the same world, which are those of
    [/weather/data]; and every record of the response has [data_type]
    equal to ["forecast"]. *)
Theorem C10_data_type_is_ignored
  (host : Host) (w : World) (limit : param Z) (d1 d2 : option string) :
  WeatherApi.get_weather_data_alt limit d1 w
  = WeatherApi.get_weather_data_alt limit d2 w
  /\ WeatherApi.get_weather_data_alt limit d1 w
     = WeatherApi.get_weather_data limit w
  /\ forall l,
      run (WeatherApi.get_weather_data_alt limit d1) w = OK_200 l ->
      Forall (fun r => WeatherApi.data_type r = "forecast"%string) l.
Proof.
  unfold WeatherApi.get_weather_data_alt, WeatherApi.get_weather_data.
  destruct (Query 20 (Some 1%Z) (Some 100%Z) limit) as [l0 |]; cbn [option_map].
  - repeat split. intros l. rewrite endpoint_accepts. intros [= <-].
    generator WeatherApi.generate_weather_data.
    apply for_append_Forall. intros. apply weather_point_data_type.
  - repeat split. intros l. unfold run. rewrite endpoint_rejects. discriminate.
Qed.

(** ** CORS preflights *)




(** * Further properties of the services *)

(** ** Default and unbounded limits *)

Lemma sample_ids {host : Host} limit d w :
  map WeatherExample.id
      (run (WeatherExample.generate_sample_weather_data limit d) w)
  = ids limit.
Proof.
  generator WeatherExample.generate_sample_weather_data.
  rewrite <- map_succ_range. apply Forall2_map_r, for_append_Forall2.
  intros. apply sample_point_id.
Qed.

(** A request that names no limit gets the declared default: 20 records
    from the weather endpoints of both weather files, 24 records from the
    two solar endpoints; the body is the generator's output for that
    limit. *)
Theorem default_limit_records (host : Host) (w : World) (d : option string) :
  (run (WeatherApi.get_weather_data Absent) w
   = OK_200 (run (WeatherApi.generate_weather_data 20) w)
   /\ List.length (run (WeatherApi.generate_weather_data 20) w) = 20%nat)
  /\ run (WeatherApi.get_weather_data_alt Absent d) w
     = OK_200 (run (WeatherApi.generate_weather_data 20) w)
  /\ (run (SolarApi.get_solar_predictions Absent) w
      = OK_200 (run (SolarApi.generate_realtime_predictions 24) w)
      /\ List.length (run (SolarApi.generate_realtime_predictions 24) w)
         = 24%nat)
  /\ (run (SolarApi.get_forecast_predictions Absent) w
      = OK_200 (run (SolarApi.generate_forecast_predictions 24) w)
      /\ List.length (run (SolarApi.generate_forecast_predictions 24) w)
         = 24%nat)
  /\ (run (WeatherExample.get_weather_data Absent) w
      = OK_200 (run (WeatherExample.generate_sample_weather_data 20 "forecast") w)
      /\ List.length
           (run (WeatherExample.generate_sample_weather_data 20 "forecast") w)
         = 20%nat).
Proof.
  unfold WeatherApi.get_weather_data, WeatherApi.get_weather_data_alt,
    SolarApi.get_solar_predictions, SolarApi.get_forecast_predictions,
    WeatherExample.get_weather_data.
  cbn [Query option_map]. rewrite !endpoint_accepts.
  rewrite weather_length, realtime_length, forecast_length, sample_length.
  repeat split.
Qed.

(** The generators validate nothing: for every integer limit, also above
    100, for which the calendar holds every timestamp of the series, each
    of the four returns max(0, limit) records with the ids 1, 2, ... in
    order, whatever the draws. *)
Theorem generators_accept_any_limit
  (host : Host) (w : World) (limit : Z) (d : string) :
  (forall i, (0 <= i < limit)%Z ->
             in_calendar (clock w - (limit - i - 1) * (5 * us_per_minute))) ->
  (forall i, (0 <= i < limit)%Z -> in_calendar (clock w + i * us_per_hour)) ->
  (List.length (run (WeatherApi.generate_weather_data limit) w)
   = Z.to_nat (Z.max 0 limit)
   /\ map WeatherApi.id (run (WeatherApi.generate_weather_data limit) w)
      = ids limit)
  /\ (List.length (run (SolarApi.generate_realtime_predictions limit) w)
      = Z.to_nat (Z.max 0 limit)
      /\ map SolarApi.id (run (SolarApi.generate_realtime_predictions limit) w)
         = ids limit)
  /\ (List.length (run (SolarApi.generate_forecast_predictions limit) w)
      = Z.to_nat (Z.max 0 limit)
      /\ map SolarApi.id (run (SolarApi.generate_forecast_predictions limit) w)
         = ids limit)
  /\ (List.length (run (WeatherExample.generate_sample_weather_data limit d) w)
      = Z.to_nat (Z.max 0 limit)
      /\ map WeatherExample.id
             (run (WeatherExample.generate_sample_weather_data limit d) w)
         = ids limit).
Proof.
  intros _ _.
  rewrite weather_length, realtime_length, forecast_length, sample_length.
  rewrite weather_ids, realtime_ids, forecast_ids, sample_ids.
  repeat split; lia.
Qed.

Lemma noon_in_calendar (limit : Z) :
  (limit <= 1000)%Z ->
  (forall i, (0 <= i < limit)%Z ->
             in_calendar (clock Demo.noon - (limit - i - 1) * (5 * us_per_minute)))
  /\ (forall i, (0 <= i < limit)%Z ->
                in_calendar (clock Demo.noon + i * us_per_hour)).
Proof.
  intros H. split; intros i Hi;
    unfold in_calendar, earliest, latest, Demo.noon, Demo.day,
      us_per_hour, us_per_minute; cbn [clock]; lia.
Qed.

Lemma generators_accept_any_limit_witness :
  List.length
    (run (WeatherApi.generate_weather_data (host := Demo.host) 150) Demo.noon)
  = 150%nat
  /\ map WeatherExample.id
         (run (WeatherExample.generate_sample_weather_data
                 (host := Demo.host) 150 "forecast") Demo.noon)
     = ids 150.
Proof.
  destruct (noon_in_calendar 150 ltac:(lia)) as [Hback Hforth].
  destruct (generators_accept_any_limit Demo.host Demo.noon 150 "forecast"
              Hback Hforth) as ((Hlen & _) & _ & _ & (_ & Hids)).
  split; [exact Hlen | exact Hids].
Defined.

(** ** What a generator does to the world *)

Lemma for_append_world {A B} (body : A -> M B) (cost : A -> nat) :
  (forall x w, snd (body x w) = mkWorld (clock w) (drawn w + cost x)) ->
  forall xs w,
    snd (for_append xs body w)
    = mkWorld (clock w) (drawn w + list_sum (map cost xs)).
Proof.
  intros Hbody xs. induction xs as [| x xs IH]; intros w; simpl.
  - destruct w. cbn. f_equal. lia.
  - unfold bind. specialize (Hbody x w).
    destruct (body x w) as [r w1]. specialize (IH w1).
    destruct (for_append xs body w1) as [rs w2]. cbn in *.
    subst. cbn. f_equal. lia.
Qed.

Lemma list_sum_by_case {A} (p : A -> bool) (base : nat) (xs : list A) :
  list_sum (map (fun x => if p x then S base else base) xs)
  = (base * List.length xs + List.length (filter p xs))%nat.
Proof.
  induction xs as [| x xs IH]; simpl; [lia |].
  rewrite IH. destruct (p x); simpl; lia.
Qed.

Section Draws.

Context {host : Host}.
Implicit Types (now : datetime) (limit i : Z) (w : World).



Lemma forecast_point_world now i w :
  snd (SolarApi.forecast_point now i w)
  = mkWorld (clock w)
      (drawn w + if daylight (hour (now + i * us_per_hour)%Z) then 5 else 4).
Proof.
  unfold SolarApi.forecast_point, random_uniform, random_random, bind, ret,
    add, hours.
  destruct (daylight _); cbn; f_equal; lia.
Qed.


End Draws.

Section Worlds.

Context {host : Host}.



Lemma forecast_world limit w :
  snd (SolarApi.generate_forecast_predictions limit w)
  = mkWorld (clock w)
      (drawn w
       + (4 * Z.to_nat limit
          + daylight_records (fun i => clock w + i * us_per_hour)%Z limit)).
Proof.
  unfold daylight_records. rewrite <- (range_length limit).
  unfold SolarApi.generate_forecast_predictions, bind, datetime_now.
  rewrite (for_append_world _ _ (forecast_point_world (clock w))).
  now rewrite (list_sum_by_case _ 4).
Qed.


End Worlds.


(** ** The hours of an hourly series *)

Lemma hour_range (t : datetime) : (0 <= hour t < 24)%Z.
Proof. unfold hour. apply Z.mod_pos_bound. lia. Qed.

Lemma hour_after (t : datetime) (i : Z) :
  hour (t + i * us_per_hour)%Z = ((hour t + i) mod 24)%Z.
Proof.
  unfold hour. rewrite Z.div_add by (unfold us_per_hour, us_per_minute; lia).
  now rewrite Zplus_mod_idemp_l.
Qed.

(** Of 24 consecutive hours of the day, 13 lie in [6, 18]. *)
Lemma thirteen_of_24 (h0 : Z) :
  (0 <= h0 < 24)%Z ->
  List.length (filter (fun i => daylight ((h0 + i) mod 24)) (Py.range 24))
  = 13%nat.
Proof.
  intros H. rewrite <- (Z2Nat.id h0) by lia.
  assert (Hn : (Z.to_nat h0 < 24)%nat) by lia.
  revert Hn. generalize (Z.to_nat h0) as n. intros n Hn.
  do 24 (destruct n as [| n]; [reflexivity |]). lia.
Qed.

(** In the two hourly series (the solar forecast and the records of
    [weather_api_example.py]) the hour of the record at index [i] is the
    hour of [now] plus [i], modulo 24; the daylight test of a record is
    therefore the one of the record 24 places before it. *)
Theorem hourly_series_hour (host : Host) (w : World) (limit : Z) (d : string)
  (k : nat) :
  let now := clock w in
  let t := add now (hours (Z.of_nat k)) in
  (forall r,
      nth_error (run (SolarApi.generate_forecast_predictions limit) w) k = Some r ->
      SolarApi.timestamp r = isoformat t)
  /\ (forall r,
         nth_error (run (WeatherExample.generate_sample_weather_data limit d) w) k
         = Some r ->
         WeatherExample.timestamp r = t)
  /\ hour t = ((hour now + Z.of_nat k) mod 24)%Z
  /\ daylight (hour (add now (hours (Z.of_nat (k + 24))))) = daylight (hour t).
Proof.
  intros now t. subst t. unfold add, hours. repeat apply conj.
  - intros r Hr. now apply forecast_timestamps in Hr as [Ht _].
  - intros r Hr. now apply sample_timestamps in Hr.
  - apply hour_after.
  - rewrite !hour_after. f_equal.
    rewrite Nat2Z.inj_add. change (Z.of_nat 24) with (1 * 24)%Z.
    now rewrite Z.add_assoc, Z.mod_add by lia.
Qed.

(** A forecast request with the default limit, at any time of any day:
    24 records, of which exactly 13 are stamped with an hour in [6, 18];
    the request takes exactly 4 * 24 + 13 = 109 numbers from the random
    source and leaves the clock alone. *)
Theorem default_forecast_covers_a_day (host : Host) (w : World) :
  let now := clock w in
  let forth := fun i : Z => add now (hours i) in
  exists l,
    SolarApi.get_forecast_predictions Absent w
    = (OK_200 l, mkWorld now (drawn w + 109))
    /\ List.length l = 24%nat
    /\ daylight_records forth 24 = 13%nat.
Proof.
  intros now forth.
  assert (H13 : daylight_records forth 24 = 13%nat).
  { unfold daylight_records. rewrite <- (thirteen_of_24 (hour now) (hour_range now)).
    f_equal. apply filter_ext. intros i. subst forth. cbv beta.
    unfold add, hours. now rewrite hour_after. }
  exists (run (SolarApi.generate_forecast_predictions 24) w).
  split; [| split; [apply forecast_length | exact H13]].
  unfold SolarApi.get_forecast_predictions. cbn [Query].
  unfold endpoint, bind, ret.
  pose proof (forecast_world 24 w) as Hw. unfold run.
  destruct (SolarApi.generate_forecast_predictions 24 w) as [l w'].
  cbn [fst snd] in *. subst w'. f_equal. f_equal.
  replace (daylight_records (fun i : Z => (clock w + i * us_per_hour)%Z) 24)
    with 13%nat by (symmetry; exact H13).
  reflexivity.
Qed.

(** ** Ranges of the remaining fields *)

(** Runs the body of a loop and projects any field of its record. *)
Tactic Notation "fields" reference(p) :=
  unfold p, random_uniform, random_random, bind, ret;
  destruct (daylight _) eqn:?;
  cbn [fst snd drawn clock
       WeatherApi.temperature WeatherApi.relative_humidity_2m
       WeatherApi.wind_speed_10m WeatherApi.pressure_msl WeatherApi.cloud_cover
       WeatherApi.direct_normal_irradiance WeatherApi.latitude
       WeatherApi.longitude WeatherApi.timestamp
       SolarApi.predicted_power_kw SolarApi.weather_conditions
       SolarApi.location SolarApi.latitude SolarApi.longitude
       SolarApi.temperature SolarApi.relative_humidity_2m
       SolarApi.wind_speed_10m SolarApi.cloud_cover
       SolarApi.direct_normal_irradiance
       WeatherExample.temperature WeatherExample.relative_humidity_2m
       WeatherExample.wind_speed_10m WeatherExample.pressure_msl
       WeatherExample.cloud_cover WeatherExample.direct_normal_irradiance
       WeatherExample.latitude WeatherExample.longitude
       WeatherExample.data_type WeatherExample.timestamp].

Section Decimals.

Local Open Scope Q_scope.

(** [round(x, n)] does not cross a multiple of [10^-n]. *)
Lemma round_between (lo hi x : Q) (n : nat) (zl zh : Z) :
  lo == inject_Z zl / inject_Z (Py.pow10 n) ->
  hi == inject_Z zh / inject_Z (Py.pow10 n) ->
  lo <= x <= hi -> lo <= Py.round x n <= hi.
Proof.
  intros El Eh [Hl Hh]. rewrite El in Hl |- *. rewrite Eh in Hh |- *.
  pose proof (inject_pow10_pos n) as Hp.
  assert (Hne : ~ inject_Z (Py.pow10 n) == 0).
  { intros E. rewrite E in Hp. now apply Qlt_irrefl in Hp. }
  unfold Py.round. rewrite Qred_correct. split.
  - apply Qle_shift_div_l; [assumption |].
    unfold Qdiv. rewrite <- Qmult_assoc, (Qmult_comm (/ _)), Qmult_inv_r, Qmult_1_r
      by assumption.
    rewrite <- Zle_Qle. apply round_half_even_ge.
    apply (Qmult_le_compat_r _ _ (inject_Z (Py.pow10 n))) in Hl;
      [| now apply Qlt_le_weak].
    unfold Qdiv in Hl.
    rewrite <- Qmult_assoc, (Qmult_comm (/ _)), Qmult_inv_r, Qmult_1_r in Hl
      by assumption.
    exact Hl.
  - apply Qle_shift_div_r; [assumption |].
    unfold Qdiv. rewrite <- Qmult_assoc, (Qmult_comm (/ _)), Qmult_inv_r, Qmult_1_r
      by assumption.
    rewrite <- Zle_Qle. apply round_half_even_le.
    apply (Qmult_le_compat_r _ _ (inject_Z (Py.pow10 n))) in Hh;
      [| now apply Qlt_le_weak].
    unfold Qdiv in Hh.
    rewrite <- Qmult_assoc, (Qmult_comm (/ _)), Qmult_inv_r, Qmult_1_r in Hh
      by assumption.
    exact Hh.
Qed.

Lemma max0_between (hi x : Q) : 0 <= hi -> x <= hi -> 0 <= Py.max 0 x <= hi.
Proof.
  intros H0 Hx. split; [apply max_ge_l | now apply max_le].
Qed.

End Decimals.

Section Clamps.

Context {host : Host}.
Implicit Types (now : datetime) (limit i : Z) (w : World).
Local Open Scope Q_scope.

Lemma weather_point_clamps now limit i w :
  let r := fst (WeatherApi.weather_point now limit i w) in
  30 <= WeatherApi.relative_humidity_2m r <= 90
  /\ 0 <= WeatherApi.wind_speed_10m r.
Proof.
  fields WeatherApi.weather_point; split;
    first [ apply (round_bounds 30 90), clamp_bounds; discriminate
          | apply round_max_nonneg ].
Qed.

Lemma realtime_point_clamps now limit i w :
  let c := SolarApi.weather_conditions
             (fst (SolarApi.realtime_point now limit i w)) in
  30 <= SolarApi.relative_humidity_2m c <= 90.
Proof.
  fields SolarApi.realtime_point;
    apply (round_bounds 30 90), clamp_bounds; discriminate.
Qed.

Lemma forecast_point_clamps now i w :
  let c := SolarApi.weather_conditions
             (fst (SolarApi.forecast_point now i w)) in
  35 <= SolarApi.relative_humidity_2m c <= 85.
Proof.
  fields SolarApi.forecast_point;
    apply (round_bounds 35 85), clamp_bounds; discriminate.
Qed.

Lemma sample_point_clamps now d i w :
  let r := fst (WeatherExample.weather_point now d i w) in
  0 <= WeatherExample.relative_humidity_2m r <= 100
  /\ 0 <= WeatherExample.cloud_cover r <= 100
  /\ 0 <= WeatherExample.wind_speed_10m r.
Proof.
  fields WeatherExample.weather_point; repeat split;
    first [ apply (round_bounds 0 100), clamp_bounds; discriminate
          | apply round_max_nonneg ].
Qed.

End Clamps.

(** The clamps written in the generators hold for every sequence of
    draws, also one that leaves [0, 1), and for every [sin]: in the
    CORS-fix files humidity is in [30, 90] (weather, realtime solar) or
    [35, 85] (forecast) and the weather wind speed is not negative; in
    [weather_api_example.py] humidity and cloud cover are in [0, 100] and
    the wind speed is not negative. *)
Theorem clamps_hold_for_any_draws
  (host : Host) (w : World) (limit : Z) (d : string) :
  Forall (fun r => 30 <= WeatherApi.relative_humidity_2m r <= 90
                   /\ 0 <= WeatherApi.wind_speed_10m r)%Q
         (run (WeatherApi.generate_weather_data limit) w)
  /\ Forall (fun r => 30 <= SolarApi.relative_humidity_2m
                              (SolarApi.weather_conditions r) <= 90)%Q
            (run (SolarApi.generate_realtime_predictions limit) w)
  /\ Forall (fun r => 35 <= SolarApi.relative_humidity_2m
                              (SolarApi.weather_conditions r) <= 85)%Q
            (run (SolarApi.generate_forecast_predictions limit) w)
  /\ Forall (fun r => 0 <= WeatherExample.relative_humidity_2m r <= 100
                      /\ 0 <= WeatherExample.cloud_cover r <= 100
                      /\ 0 <= WeatherExample.wind_speed_10m r)%Q
            (run (WeatherExample.generate_sample_weather_data limit d) w).
Proof.
  repeat apply conj.
  - generator WeatherApi.generate_weather_data.
    apply for_append_Forall. intros. apply weather_point_clamps.
  - generator SolarApi.generate_realtime_predictions.
    apply for_append_Forall. intros. apply realtime_point_clamps.
  - generator SolarApi.generate_forecast_predictions.
    apply for_append_Forall. intros. apply forecast_point_clamps.
  - generator WeatherExample.generate_sample_weather_data.
    apply for_append_Forall. intros. apply sample_point_clamps.
Qed.

Section UnitDraws.

Context {host : Host}.
Implicit Types (now : datetime) (limit i : Z) (w : World).
Local Open Scope Q_scope.

(** [random()] is in [[0, 1)]. *)
Hypothesis random_unit : forall k, 0 <= random k < 1.

Lemma jitter (a b lo hi c : Q) (k : nat) :
  a <= b -> lo <= c + a -> c + b <= hi ->
  lo <= c + (a + (b - a) * random k) <= hi.
Proof.
  intros Hab Hlo Hhi.
  destruct (uniform_bounds a b (random k) Hab (random_unit k)) as [H1 H2].
  split; lra.
Qed.

Lemma max0_keeps (lo hi x : Q) : 0 <= lo -> lo <= x <= hi -> lo <= Py.max 0 x <= hi.
Proof.
  intros H0 [Hl Hh]. split.
  - unfold Py.max. destruct (Py.gt x 0) eqn:E; [exact Hl |].
    apply gt_false in E. lra.
  - apply max_le; [lra | exact Hh].
Qed.

Lemma weather_point_ranges now limit i w :
  let r := fst (WeatherApi.weather_point now limit i w) in
  1003 <= WeatherApi.pressure_msl r <= 1023
  /\ 2 <= WeatherApi.wind_speed_10m r <= 6
  /\ 0 <= WeatherApi.cloud_cover r <= 80.
Proof.
  fields WeatherApi.weather_point;
    (split;
     [ apply (round_bounds 1003 1023), jitter; discriminate
     | split;
       [ apply (round_bounds 2 6), max0_keeps; [discriminate |];
         apply jitter; discriminate
       | apply (round_uniform random_unit 80); discriminate ] ]).
Qed.

Lemma realtime_point_wind now limit i w :
  let c := SolarApi.weather_conditions
             (fst (SolarApi.realtime_point now limit i w)) in
  2 <= SolarApi.wind_speed_10m c <= 5.
Proof.
  fields SolarApi.realtime_point;
    apply (round_bounds 2 5), jitter; discriminate.
Qed.

Lemma forecast_point_wind now i w :
  let c := SolarApi.weather_conditions
             (fst (SolarApi.forecast_point now i w)) in
  2 <= SolarApi.wind_speed_10m c <= 4.5.
Proof.
  fields SolarApi.forecast_point;
    (apply (round_between 2 4.5 _ 1 20 45); [reflexivity | reflexivity |];
     apply jitter; discriminate).
Qed.

Lemma noon_distance (t : datetime) :
  0 <= inject_Z (Py.abs (12 - hour t)) <= 12.
Proof.
  pose proof (hour_range t) as H. unfold Py.abs.
  change 0 with (inject_Z 0). change 12 with (inject_Z 12).
  rewrite <- !Zle_Qle. lia.
Qed.

Lemma noon_distance_daylight (t : datetime) :
  daylight (hour t) = true -> 0 <= inject_Z (Py.abs (12 - hour t)) <= 6.
Proof.
  unfold daylight, Py.abs. intros H. apply andb_true_iff in H as [H1 H2].
  apply Z.leb_le in H1, H2.
  change 0 with (inject_Z 0). change 6 with (inject_Z 6).
  rewrite <- !Zle_Qle. lia.
Qed.

Lemma sample_point_ranges now d i w :
  let r := fst (WeatherExample.weather_point now d i w) in
  17 <= WeatherExample.temperature r <= 33
  /\ 1003 <= WeatherExample.pressure_msl r <= 1023
  /\ 3 <= WeatherExample.wind_speed_10m r <= 10
  /\ 0 <= WeatherExample.direct_normal_irradiance r <= 1050.
Proof.
  assert (Htemp : forall t k,
             17 <= 20 + inject_Z (10 * Py.abs (12 - hour t)) / 12
                   + (-3 + (3 - -3) * random k) <= 33).
  { intros t k. pose proof (noon_distance t) as Hd.
    pose proof (random_unit k) as Hu.
    rewrite inject_Z_mult. change (inject_Z 10) with 10.
    set (a := inject_Z (Py.abs (12 - hour t))) in *.
    assert (E : 10 * a / 12 == a * (5 # 6)) by field.
    rewrite E. split; lra. }
  assert (Hirr : forall t k1 k2,
             daylight (hour t) = true ->
             1000 * (1 - (0 + (100 - 0) * random k1) / 100)
               * (1 - inject_Z (Py.abs (12 - hour t)) / 6)
             + (-50 + (50 - -50) * random k2) <= 1050).
  { intros t k1 k2 Hday. pose proof (noon_distance_daylight t Hday) as Hd.
    pose proof (random_unit k1) as Hu1. pose proof (random_unit k2) as Hu2.
    set (a := inject_Z (Py.abs (12 - hour t))) in *.
    set (u1 := random k1) in *. set (u2 := random k2) in *.
    assert (E : 1000 * (1 - (0 + (100 - 0) * u1) / 100) * (1 - a / 6)
                == 1000 * ((1 - u1) * (1 - a * (1 # 6)))) by field.
    rewrite E.
    assert (Hp : (1 - u1) * (1 - a * (1 # 6)) <= 1).
    { apply Qle_trans with ((1 - u1) * 1).
      - rewrite !(Qmult_comm (1 - u1)).
        apply Qmult_le_compat_r; lra.
      - lra. }
    lra. }
  fields WeatherExample.weather_point.
  - split; [apply (round_bounds 17 33), Htemp |].
    split; [apply (round_bounds 1003 1023), jitter; discriminate |].
    split; [apply (round_bounds 3 10), max0_keeps;
            [discriminate | apply jitter; discriminate] |].
    apply (round_bounds 0 1050), max0_between; [discriminate |].
    now apply Hirr.
  - split; [apply (round_bounds 17 33), Htemp |].
    split; [apply (round_bounds 1003 1023), jitter; discriminate |].
    split; [apply (round_bounds 3 10), max0_keeps;
            [discriminate | apply jitter; discriminate] |].
    apply (round_bounds 0 1050), max0_between; discriminate.
Qed.

End UnitDraws.

(** With [random()] in [0, 1), the fields of the records of the CORS-fix
    weather service stay in the ranges its constants give: pressure in
    [1003, 1023], wind speed in [2, 6], cloud cover in [0, 80]. *)
Theorem weather_record_ranges (host : Host) (w : World) (limit : Z) :
  (forall k, 0 <= random k < 1)%Q ->
  Forall (fun r => 1003 <= WeatherApi.pressure_msl r <= 1023
                   /\ 2 <= WeatherApi.wind_speed_10m r <= 6
                   /\ 0 <= WeatherApi.cloud_cover r <= 80)%Q
         (run (WeatherApi.generate_weather_data limit) w).
Proof.
  intros Hrandom. generator WeatherApi.generate_weather_data.
  apply for_append_Forall. intros. now apply weather_point_ranges.
Qed.

Lemma weather_record_ranges_witness :
  Forall (fun r => 1003 <= WeatherApi.pressure_msl r <= 1023
                   /\ 2 <= WeatherApi.wind_speed_10m r <= 6
                   /\ 0 <= WeatherApi.cloud_cover r <= 80)%Q
         (run (WeatherApi.generate_weather_data (host := Demo.host) 3) Demo.noon).
Proof.
  apply (weather_record_ranges Demo.host Demo.noon 3 cycle_unit).
Defined.

(** With [random()] in [0, 1), the records of [weather_api_example.py]
    have temperature in [17, 33], pressure in [1003, 1023], wind speed in
    [3, 10] and irradiance in [0, 1050], at every hour of the day. *)
Theorem sample_record_ranges
  (host : Host) (w : World) (limit : Z) (d : string) :
  (forall k, 0 <= random k < 1)%Q ->
  Forall (fun r => 17 <= WeatherExample.temperature r <= 33
                   /\ 1003 <= WeatherExample.pressure_msl r <= 1023
                   /\ 3 <= WeatherExample.wind_speed_10m r <= 10
                   /\ 0 <= WeatherExample.direct_normal_irradiance r <= 1050)%Q
         (run (WeatherExample.generate_sample_weather_data limit d) w).
Proof.
  intros Hrandom. generator WeatherExample.generate_sample_weather_data.
  apply for_append_Forall. intros. now apply sample_point_ranges.
Qed.

Lemma sample_record_ranges_witness :
  Forall (fun r => 17 <= WeatherExample.temperature r <= 33
                   /\ 1003 <= WeatherExample.pressure_msl r <= 1023
                   /\ 3 <= WeatherExample.wind_speed_10m r <= 10
                   /\ 0 <= WeatherExample.direct_normal_irradiance r <= 1050)%Q
         (run (WeatherExample.generate_sample_weather_data
                 (host := Demo.host) 3 "forecast") Demo.noon).
Proof.
  apply (sample_record_ranges Demo.host Demo.noon 3 "forecast" cycle_unit).
Defined.

Section BoundedSin.

Context {host : Host}.
Implicit Types (now : datetime) (limit i : Z) (w : World).
Local Open Scope Q_scope.

(** [random()] is in [[0, 1)] and [sin] in [[-1, 1]]. *)
Hypothesis random_unit : forall k, 0 <= random k < 1.
Hypothesis sin_range : forall x, -1 <= sin x <= 1.

Lemma sin_hour_range (h : Z) : -1 <= sin_hour h <= 1.
Proof. apply sin_range. Qed.

Lemma realtime_point_caps now limit i w :
  let r := fst (SolarApi.realtime_point now limit i w) in
  let c := SolarApi.weather_conditions r in
  0 <= SolarApi.predicted_power_kw r <= 5.5
  /\ 0 <= SolarApi.direct_normal_irradiance c <= 800
  /\ 15 <= SolarApi.temperature c <= 35.
Proof.
  assert (Htemp : forall h k,
             15 <= 25 + sin_hour h * 8 + (-2 + (2 - -2) * random k) <= 35).
  { intros h k. pose proof (sin_hour_range h). pose proof (random_unit k).
    split; lra. }
  fields SolarApi.realtime_point.
  - split; [| split; [| apply (round_bounds 15 35), Htemp]].
    + apply (round_between 0 5.5 _ 2 0 550); [reflexivity | reflexivity |].
      apply max0_between; [discriminate |].
      match goal with |- sin_hour ?h * 5 + (_ + _ * random ?k) <= _ =>
        pose proof (sin_hour_range h); pose proof (random_unit k) end.
      lra.
    + apply (round_bounds 0 800), max0_between; [discriminate |].
      match goal with |- 800 * sin_hour ?h <= _ =>
        pose proof (sin_hour_range h) end.
      unfold inject_Z. lra.
  - split; [| split; [| apply (round_bounds 15 35), Htemp]].
    + apply (round_between 0 5.5 _ 2 0 550); [reflexivity | reflexivity |].
      split; discriminate.
    + apply (round_bounds 0 800). split; discriminate.
Qed.

Lemma forecast_point_caps now i w :
  let r := fst (SolarApi.forecast_point now i w) in
  let c := SolarApi.weather_conditions r in
  0 <= SolarApi.predicted_power_kw r <= 6.8
  /\ 0 <= SolarApi.direct_normal_irradiance c <= 850
  /\ 17.5 <= SolarApi.temperature c <= 34.5.
Proof.
  assert (Htemp : forall h k,
             17.5 <= 26 + sin_hour h * 7 + (-1.5 + (1.5 - -1.5) * random k)
             <= 34.5).
  { intros h k. pose proof (sin_hour_range h). pose proof (random_unit k).
    split; lra. }
  assert (Hround : forall x,
             17.5 <= x <= 34.5 -> 17.5 <= Py.round x 1 <= 34.5).
  { intros x. apply (round_between 17.5 34.5 _ 1 175 345); reflexivity. }
  fields SolarApi.forecast_point.
  - split; [| split; [| apply Hround, Htemp]].
    + apply (round_between 0 6.8 _ 2 0 680); [reflexivity | reflexivity |].
      apply max0_between; [discriminate |].
      match goal with |- sin_hour ?h * 6 + (_ + _ * random ?k) <= _ =>
        pose proof (sin_hour_range h); pose proof (random_unit k) end.
      lra.
    + apply (round_bounds 0 850), max0_between; [discriminate |].
      match goal with |- 850 * sin_hour ?h <= _ =>
        pose proof (sin_hour_range h) end.
      unfold inject_Z. lra.
  - split; [| split; [| apply Hround, Htemp]].
    + apply (round_between 0 6.8 _ 2 0 680); [reflexivity | reflexivity |].
      split; discriminate.
    + apply (round_bounds 0 850). split; discriminate.
Qed.

Lemma weather_point_caps now limit i w :
  let r := fst (WeatherApi.weather_point now limit i w) in
  15 <= WeatherApi.temperature r <= 35
  /\ 0 <= WeatherApi.direct_normal_irradiance r <= 850.
Proof.
  assert (Htemp : forall h k,
             15 <= 25 + sin_hour h * 8 + (-2 + (2 - -2) * random k) <= 35).
  { intros h k. pose proof (sin_hour_range h). pose proof (random_unit k).
    split; lra. }
  assert (Hirr : forall h k1 k2,
             800 * sin_hour h * ((100 - (0 + (80 - 0) * random k1)) / 100)
             + (-50 + (50 - -50) * random k2) <= 850).
  { intros h k1 k2. pose proof (sin_hour_range h) as Hs.
    pose proof (random_unit k1) as Hu1. pose proof (random_unit k2) as Hu2.
    set (s := sin_hour h) in *. set (u1 := random k1) in *.
    set (u2 := random k2) in *.
    assert (E : 800 * s * ((100 - (0 + (80 - 0) * u1)) / 100)
                == 800 * (s * (1 - (4 # 5) * u1))) by field.
    rewrite E.
    assert (Hp : s * (1 - (4 # 5) * u1) <= 1).
    { apply Qle_trans with (1 * (1 - (4 # 5) * u1)).
      - apply Qmult_le_compat_r; lra.
      - lra. }
    lra. }
  fields WeatherApi.weather_point.
  - split; [apply (round_bounds 15 35), Htemp |].
    apply (round_bounds 0 850), max0_between; [discriminate | apply Hirr].
  - split; [apply (round_bounds 15 35), Htemp |].
    apply (round_bounds 0 850). split; discriminate.
Qed.

End BoundedSin.

Lemma bounded_series_range (x : Q) : (-1 <= Demo.bounded_series x <= 1)%Q.
Proof. unfold Demo.bounded_series. apply clamp_bounds. discriminate. Qed.

(** With [random()] in [0, 1) and [sin] in [-1, 1], the solar records stay
    under the caps their constants give: realtime power in [0, 5.5] kW,
    irradiance in [0, 800], temperature in [15, 35], wind speed in
    [2, 5]; forecast power in [0, 6.8] kW, irradiance in [0, 850],
    temperature in [17.5, 34.5], wind speed in [2, 4.5]. *)
Theorem solar_record_caps (host : Host) (w : World) (limit : Z) :
  (forall k, 0 <= random k < 1)%Q ->
  (forall x, -1 <= sin x <= 1)%Q ->
  Forall (fun r =>
            let c := SolarApi.weather_conditions r in
            0 <= SolarApi.predicted_power_kw r <= 5.5
            /\ 0 <= SolarApi.direct_normal_irradiance c <= 800
            /\ 15 <= SolarApi.temperature c <= 35
            /\ 2 <= SolarApi.wind_speed_10m c <= 5)%Q
         (run (SolarApi.generate_realtime_predictions limit) w)
  /\ Forall (fun r =>
               let c := SolarApi.weather_conditions r in
               0 <= SolarApi.predicted_power_kw r <= 6.8
               /\ 0 <= SolarApi.direct_normal_irradiance c <= 850
               /\ 17.5 <= SolarApi.temperature c <= 34.5
               /\ 2 <= SolarApi.wind_speed_10m c <= 4.5)%Q
            (run (SolarApi.generate_forecast_predictions limit) w).
Proof.
  intros Hrandom Hsin. split.
  - generator SolarApi.generate_realtime_predictions.
    apply for_append_Forall. intros i w0.
    destruct (realtime_point_caps Hrandom Hsin (clock w) limit i w0)
      as (Hp & Hi & Ht).
    pose proof (realtime_point_wind Hrandom (clock w) limit i w0) as Hw.
    cbv zeta in *. auto.
  - generator SolarApi.generate_forecast_predictions.
    apply for_append_Forall. intros i w0.
    destruct (forecast_point_caps Hrandom Hsin (clock w) i w0)
      as (Hp & Hi & Ht).
    pose proof (forecast_point_wind Hrandom (clock w) i w0) as Hw.
    cbv zeta in *. auto.
Qed.

Lemma solar_record_caps_witness :
  Forall (fun r =>
            let c := SolarApi.weather_conditions r in
            0 <= SolarApi.predicted_power_kw r <= 5.5
            /\ 0 <= SolarApi.direct_normal_irradiance c <= 800
            /\ 15 <= SolarApi.temperature c <= 35
            /\ 2 <= SolarApi.wind_speed_10m c <= 5)%Q
         (run (SolarApi.generate_realtime_predictions
                 (host := Demo.bounded_host) 3) Demo.noon).
Proof.
  apply (solar_record_caps Demo.bounded_host Demo.noon 3
           cycle_unit bounded_series_range).
Defined.

(** With [random()] in [0, 1) and [sin] in [-1, 1], the records of the
    CORS-fix weather service have temperature in [15, 35] and irradiance
    in [0, 850]. *)
Theorem weather_record_caps (host : Host) (w : World) (limit : Z) :
  (forall k, 0 <= random k < 1)%Q ->
  (forall x, -1 <= sin x <= 1)%Q ->
  Forall (fun r => 15 <= WeatherApi.temperature r <= 35
                   /\ 0 <= WeatherApi.direct_normal_irradiance r <= 850)%Q
         (run (WeatherApi.generate_weather_data limit) w).
Proof.
  intros Hrandom Hsin. generator WeatherApi.generate_weather_data.
  apply for_append_Forall. intros. now apply weather_point_caps.
Qed.

Lemma weather_record_caps_witness :
  Forall (fun r => 15 <= WeatherApi.temperature r <= 35
                   /\ 0 <= WeatherApi.direct_normal_irradiance r <= 850)%Q
         (run (WeatherApi.generate_weather_data
                 (host := Demo.bounded_host) 3) Demo.noon).
Proof.
  apply (weather_record_caps Demo.bounded_host Demo.noon 3
           cycle_unit bounded_series_range).
Defined.

(** ** [data_type] and the night in the weather records *)

Section WeatherFields.

Context {host : Host}.
Implicit Types (now : datetime) (limit i : Z) (w : World).

Lemma sample_point_data_type now d i w :
  WeatherExample.data_type (fst (WeatherExample.weather_point now d i w)) = d.
Proof. fields WeatherExample.weather_point; reflexivity. Qed.

Lemma weather_point_night now limit i w :
  let t := sub now (minutes ((limit - i - 1) * 5)%Z) in
  let r := fst (WeatherApi.weather_point now limit i w) in
  WeatherApi.timestamp r = isoformat t
  /\ (daylight (hour t) = false -> WeatherApi.direct_normal_irradiance r = 0%Q).
Proof.
  fields WeatherApi.weather_point; (split; [reflexivity |]); intros E;
    [congruence | apply round_zero].
Qed.

Lemma sample_point_night now d i w :
  let t := add now (hours i) in
  let r := fst (WeatherExample.weather_point now d i w) in
  WeatherExample.timestamp r = t
  /\ (daylight (hour t) = false ->
      WeatherExample.direct_normal_irradiance r = 0%Q).
Proof.
  fields WeatherExample.weather_point; (split; [reflexivity |]); intros E;
    [congruence |].
  change (Py.max 0 0) with 0%Q. apply round_zero.
Qed.

Lemma weather_night limit w k r :
  nth_error (run (WeatherApi.generate_weather_data limit) w) k = Some r ->
  let t := sub (clock w) (minutes ((limit - Z.of_nat k - 1) * 5)) in
  WeatherApi.timestamp r = isoformat t
  /\ (daylight (hour t) = false -> WeatherApi.direct_normal_irradiance r = 0%Q).
Proof.
  generator WeatherApi.generate_weather_data. intros Hk.
  eapply (range_Forall2_nth
            (fun i r =>
               let t := sub (clock w) (minutes ((limit - i - 1) * 5)) in
               WeatherApi.timestamp r = isoformat t
               /\ (daylight (hour t) = false ->
                   WeatherApi.direct_normal_irradiance r = 0%Q)));
    [| exact Hk].
  apply for_append_Forall2. intros. apply weather_point_night.
Qed.

Lemma sample_night limit d w k r :
  nth_error (run (WeatherExample.generate_sample_weather_data limit d) w) k
  = Some r ->
  let t := add (clock w) (hours (Z.of_nat k)) in
  WeatherExample.timestamp r = t
  /\ (daylight (hour t) = false ->
      WeatherExample.direct_normal_irradiance r = 0%Q).
Proof.
  generator WeatherExample.generate_sample_weather_data. intros Hk.
  eapply (range_Forall2_nth
            (fun i r =>
               let t := add (clock w) (hours i) in
               WeatherExample.timestamp r = t
               /\ (daylight (hour t) = false ->
                   WeatherExample.direct_normal_irradiance r = 0%Q)));
    [| exact Hk].
  apply for_append_Forall2. intros. apply sample_point_night.
Qed.

End WeatherFields.

(** In both weather files, a record stamped with an hour outside [6, 18]
    has [direct_normal_irradiance] equal to 0, whatever the cloud cover
    and the draws: [t] is [now - (limit - k - 1) * 5 minutes] in the
    CORS-fix service and the record's own timestamp in
    [weather_api_example.py]. *)
Theorem weather_irradiance_zero_at_night
  (host : Host) (w : World) (limit : Z) (d : string) (k : nat)
  (t : datetime) (irradiance : Q) :
  (exists r,
      nth_error (run (WeatherApi.generate_weather_data limit) w) k = Some r
      /\ t = sub (clock w) (minutes ((limit - Z.of_nat k - 1) * 5))
      /\ irradiance = WeatherApi.direct_normal_irradiance r)
  \/ (exists r,
         nth_error (run (WeatherExample.generate_sample_weather_data limit d) w) k
         = Some r
         /\ t = WeatherExample.timestamp r
         /\ irradiance = WeatherExample.direct_normal_irradiance r) ->
  ~ (6 <= hour t <= 18)%Z ->
  irradiance = 0%Q.
Proof.
  intros [(r & Hk & -> & ->) | (r & Hk & -> & ->)] Hnight;
    apply daylight_false in Hnight.
  - destruct (weather_night _ _ _ _ Hk) as [_ Hz]. auto.
  - destruct (sample_night _ _ _ _ _ Hk) as [Ht Hz]. cbv zeta in *.
    rewrite Ht in Hnight. auto.
Qed.

Lemma weather_irradiance_zero_at_night_witness :
  exists r,
    nth_error
      (run (WeatherExample.generate_sample_weather_data
              (host := Demo.host) 2 "forecast") Demo.night) 1 = Some r
    /\ ~ (6 <= hour (WeatherExample.timestamp r) <= 18)%Z
    /\ WeatherExample.direct_normal_irradiance r = 0%Q.
Proof.
  eexists. split; [vm_compute; reflexivity |].
  assert (Hnight : ~ (6 <= hour (clock Demo.night + 1 * us_per_hour) <= 18)%Z).
  { intros [_ H]. vm_compute in H. apply H. reflexivity. }
  split; [exact Hnight |].
  apply (weather_irradiance_zero_at_night
           Demo.host Demo.night 2 "forecast" 1
           (clock Demo.night + 1 * us_per_hour)%Z).
  - right. eexists. split; [vm_compute; reflexivity |]. split; reflexivity.
  - exact Hnight.
Defined.

(** In [weather_api_example.py] the [data_type] of a request to
    [/weather-data] is copied into every record of the response, and is
    ["forecast"] when the request names none; [/weather/data] always
    answers with ["forecast"].  This is so for every integer limit for
    which the calendar holds the timestamps of the series. *)
Theorem sample_data_type_is_passed_on
  (host : Host) (w : World) (limit : Z) (d : option string) :
  (forall i, (0 <= i < limit)%Z -> in_calendar (clock w + i * us_per_hour)) ->
  (exists l,
      run (WeatherExample.get_weather_data_alternative (Given limit) d) w
      = OK_200 l
      /\ List.length l = Z.to_nat limit
      /\ Forall (fun r => WeatherExample.data_type r
                          = match d with Some s => s | None => "forecast"%string end)
                l)
  /\ (exists l,
         run (WeatherExample.get_weather_data (Given limit)) w = OK_200 l
         /\ Forall (fun r => WeatherExample.data_type r = "forecast"%string) l).
Proof.
  intros _. split; eexists.
  - unfold WeatherExample.get_weather_data_alternative.
    rewrite Query_unbounded. cbn [option_map]. rewrite endpoint_accepts.
    split; [reflexivity |]. split; [apply sample_length |].
    generator WeatherExample.generate_sample_weather_data.
    apply for_append_Forall. intros. rewrite sample_point_data_type.
    now destruct d.
  - unfold WeatherExample.get_weather_data.
    rewrite Query_unbounded, endpoint_accepts. split; [reflexivity |].
    generator WeatherExample.generate_sample_weather_data.
    apply for_append_Forall. intros. apply sample_point_data_type.
Qed.

Lemma sample_data_type_is_passed_on_witness :
  exists l,
    run (WeatherExample.get_weather_data_alternative
           (host := Demo.host) (Given 3%Z) (Some "historical"%string)) Demo.noon
    = OK_200 l
    /\ List.length l = 3%nat
    /\ Forall (fun r => WeatherExample.data_type r = "historical"%string) l.
Proof.
  destruct (noon_in_calendar 3 ltac:(lia)) as [_ Hforth].
  destruct (sample_data_type_is_passed_on
              Demo.host Demo.noon 3 (Some "historical"%string) Hforth)
    as [Halt _].
  exact Halt.
Defined.

(** ** The static endpoints *)



(** Every path a banner lists under ["endpoints"] is a route the same file
    declares with [@app.get].  The banners are not complete: the solar
    service serves [/solar-predictions/summary] and the example service
    [/health], and neither is listed. *)
Theorem banners_list_declared_routes (host : Host) (w : World) :
  Forall (fun p => In (Cors.GET p) Cors.weather_api_routes)
         (advertised (run WeatherApi.root w))
  /\ Forall (fun p => In (Cors.GET p) Cors.solar_api_routes)
            (advertised (run SolarApi.root w))
  /\ Forall (fun p => In (Cors.GET p) Cors.weather_example_routes)
            (advertised (run WeatherExample.root w))
  /\ (In (Cors.GET "/solar-predictions/summary") Cors.solar_api_routes
      /\ ~ In "/solar-predictions/summary"%string
              (advertised (run SolarApi.root w)))
  /\ (In (Cors.GET "/health") Cors.weather_example_routes
      /\ ~ In "/health"%string (advertised (run WeatherExample.root w))).
Proof.
  repeat apply conj.
  - cbn. repeat (apply Forall_cons; [simpl; auto 10 |]). apply Forall_nil.
  - cbn. repeat (apply Forall_cons; [simpl; auto 10 |]). apply Forall_nil.
  - cbn. repeat (apply Forall_cons; [simpl; auto 10 |]). apply Forall_nil.
  - simpl; auto 10.
  - cbn. intros [H | [H | [H | []]]]; discriminate.
  - simpl; auto 10.
  - cbn. intros [H | [H | []]]; discriminate.
Qed.

(** ** The location *)

Section Location.

Context {host : Host}.
Implicit Types (now : datetime) (limit i : Z) (w : World).

Lemma weather_point_location now limit i w :
  let r := fst (WeatherApi.weather_point now limit i w) in
  WeatherApi.latitude r = 6.86666%Q /\ WeatherApi.longitude r = 80.01667%Q.
Proof. fields WeatherApi.weather_point; split; reflexivity. Qed.

Lemma realtime_point_location now limit i w :
  SolarApi.location (fst (SolarApi.realtime_point now limit i w))
  = {| SolarApi.latitude := 6.86666; SolarApi.longitude := 80.01667 |}.
Proof.
  unfold SolarApi.realtime_point, random_uniform, random_random, bind, ret.
  destruct (daylight _); reflexivity.
Qed.

Lemma forecast_point_location now i w :
  SolarApi.location (fst (SolarApi.forecast_point now i w))
  = {| SolarApi.latitude := 6.86666; SolarApi.longitude := 80.01667 |}.
Proof.
  unfold SolarApi.forecast_point, random_uniform, random_random, bind, ret.
  destruct (daylight _); reflexivity.
Qed.

Lemma sample_point_location now d i w :
  let r := fst (WeatherExample.weather_point now d i w) in
  WeatherExample.latitude r = 6.86666%Q
  /\ WeatherExample.longitude r = 80.01667%Q.
Proof. fields WeatherExample.weather_point; split; reflexivity. Qed.

End Location.

(** Every record of every generator, weather or solar, carries the same
    point: latitude 6.86666, longitude 80.01667. *)
Theorem one_location_everywhere
  (host : Host) (w : World) (limit : Z) (d : string) :
  let here := {| SolarApi.latitude := 6.86666; SolarApi.longitude := 80.01667 |} in
  Forall (fun r => WeatherApi.latitude r = SolarApi.latitude here
                   /\ WeatherApi.longitude r = SolarApi.longitude here)
         (run (WeatherApi.generate_weather_data limit) w)
  /\ Forall (fun r => SolarApi.location r = here)
            (run (SolarApi.generate_realtime_predictions limit) w)
  /\ Forall (fun r => SolarApi.location r = here)
            (run (SolarApi.generate_forecast_predictions limit) w)
  /\ Forall (fun r => WeatherExample.latitude r = SolarApi.latitude here
                      /\ WeatherExample.longitude r = SolarApi.longitude here)
            (run (WeatherExample.generate_sample_weather_data limit d) w).
Proof.
  cbv zeta. repeat apply conj.
  - generator WeatherApi.generate_weather_data.
    apply for_append_Forall. intros. apply weather_point_location.
  - generator SolarApi.generate_realtime_predictions.
    apply for_append_Forall. intros. apply realtime_point_location.
  - generator SolarApi.generate_forecast_predictions.
    apply for_append_Forall. intros. apply forecast_point_location.
  - generator WeatherExample.generate_sample_weather_data.
    apply for_append_Forall. intros. apply sample_point_location.
Qed.

(** ** Validation, all cases *)

(** The four list endpoints of the CORS-fix files accept an integer limit
    exactly when it lies in [1, 100]; a limit that is not an integer is
    answered 422 by all six list endpoints, those of
    [weather_api_example.py] included, and the generator does not run. *)
Theorem limit_validation
  (host : Host) (w : World) (limit : Z) (d : option string) :
  ((1 <= limit <= 100)%Z
   <-> exists l, run (WeatherApi.get_weather_data (Given limit)) w = OK_200 l)
  /\ ((1 <= limit <= 100)%Z
      <-> exists l, run (WeatherApi.get_weather_data_alt (Given limit) d) w
                    = OK_200 l)
  /\ ((1 <= limit <= 100)%Z
      <-> exists l, run (SolarApi.get_solar_predictions (Given limit)) w
                    = OK_200 l)
  /\ ((1 <= limit <= 100)%Z
      <-> exists l, run (SolarApi.get_forecast_predictions (Given limit)) w
                    = OK_200 l)
  /\ WeatherApi.get_weather_data Malformed w = (Unprocessable_422, w)
  /\ WeatherApi.get_weather_data_alt Malformed d w = (Unprocessable_422, w)
  /\ SolarApi.get_solar_predictions Malformed w = (Unprocessable_422, w)
  /\ SolarApi.get_forecast_predictions Malformed w = (Unprocessable_422, w)
  /\ WeatherExample.get_weather_data Malformed w = (Unprocessable_422, w)
  /\ WeatherExample.get_weather_data_alternative Malformed d w
     = (Unprocessable_422, w).
Proof.
  assert (Hin : forall default,
             (1 <= limit <= 100)%Z ->
             Query default (Some 1%Z) (Some 100%Z) (Given limit) = Some limit).
  { intros. now apply Query_in_bounds. }
  assert (Hout : forall default,
             ~ (1 <= limit <= 100)%Z ->
             Query default (Some 1%Z) (Some 100%Z) (Given limit) = None).
  { intros. apply Query_out_of_bounds. lia. }
  unfold WeatherApi.get_weather_data, WeatherApi.get_weather_data_alt,
    SolarApi.get_solar_predictions, SolarApi.get_forecast_predictions,
    WeatherExample.get_weather_data, WeatherExample.get_weather_data_alternative.
  destruct (Z_le_dec 1 limit) as [H1 |]; [destruct (Z_le_dec limit 100) as [H2 |] |].
  - rewrite !Hin by lia. cbn [option_map]. rewrite !endpoint_accepts.
    repeat apply conj; try reflexivity;
      first [intros _; eexists; reflexivity | intros _; lia].
  - rewrite !Hout by lia. cbn [option_map].
    repeat apply conj; try reflexivity;
      first [intros [l Hl]; discriminate Hl | intros H; exfalso; lia].
  - rewrite !Hout by lia. cbn [option_map].
    repeat apply conj; try reflexivity;
      first [intros [l Hl]; discriminate Hl | intros H; exfalso; lia].
Qed.

(** ** A longer forecast extends a shorter one *)

Lemma for_append_app {A B} (body : A -> M B) (xs ys : list A) (w : World) :
  fst (for_append (xs ++ ys) body w)
  = fst (for_append xs body w)
    ++ fst (for_append ys body (snd (for_append xs body w))).
Proof.
  revert w. induction xs as [| x xs IH]; intros w; simpl.
  - reflexivity.
  - unfold bind. destruct (body x w) as [r w1]. specialize (IH w1).
    destruct (for_append (xs ++ ys) body w1) as [rs w2].
    destruct (for_append xs body w1) as [rs1 w3]. cbn in *.
    now rewrite IH.
Qed.

Lemma range_app (n m : Z) :
  (0 <= n <= m)%Z ->
  Py.range m
  = Py.range n ++ map Z.of_nat (seq (Z.to_nat n) (Z.to_nat m - Z.to_nat n)).
Proof.
  intros H. unfold Py.range. rewrite <- map_app, <- seq_app.
  do 2 f_equal. lia.
Qed.

Lemma for_append_prefix {B} (body : Z -> M B) (n m : Z) (w : World) :
  (0 <= n <= m)%Z ->
  fst (for_append (Py.range n) body w)
  = firstn (Z.to_nat n) (fst (for_append (Py.range m) body w)).
Proof.
  intros H. rewrite (range_app n m H), for_append_app.
  rewrite firstn_app.
  rewrite for_append_length, range_length, Nat.sub_diag, firstn_O, app_nil_r.
  symmetry. apply firstn_all2.
  rewrite for_append_length, range_length. lia.
Qed.

(** In the two forward series the body of the loop does not look at the
    limit: with the same clock and the same draws, the response to a
    smaller limit is the beginning of the response to a larger one
    (solar forecast and [weather_api_example.py]). *)
Theorem forward_series_prefix
  (host : Host) (w : World) (n m : Z) (d : string) :
  (0 <= n <= m)%Z ->
  run (SolarApi.generate_forecast_predictions n) w
  = firstn (Z.to_nat n) (run (SolarApi.generate_forecast_predictions m) w)
  /\ run (WeatherExample.generate_sample_weather_data n d) w
     = firstn (Z.to_nat n)
              (run (WeatherExample.generate_sample_weather_data m d) w).
Proof.
  intros H. split.
  - generator SolarApi.generate_forecast_predictions.
    now apply for_append_prefix.
  - generator WeatherExample.generate_sample_weather_data.
    now apply for_append_prefix.
Qed.

Lemma forward_series_prefix_witness :
  (0 <= 2 <= 5)%Z
  /\ run (SolarApi.generate_forecast_predictions (host := Demo.host) 2) Demo.noon
     = firstn 2
         (run (SolarApi.generate_forecast_predictions (host := Demo.host) 5)
              Demo.noon).
Proof.
  split; [lia |].
  apply (forward_series_prefix Demo.host Demo.noon 2 5 "forecast"). lia.
Defined.
